(** * CoinGecko category dashboard: aggregation, filtering and page flow

    A shallow embedding of [pages/1_📊_CoinGecko_Categories.py].

    - JSON objects are Python dicts: finite maps from field names to values.
      An asset is represented by its numeric fields, each an [option Q]:
      [None] is JSON [null] (pandas' NaN once the record sits in a frame),
      a number is the int or the double that [response.json()] reads,
      taken as a rational. What pandas makes of
      a column when it adds it up or averages it (float64 with rounding,
      int64, in an order of its choosing) belongs to the world, so no
      arithmetic law is built in. The text fields of an asset (id, symbol,
      name) are read by plotly only and are left out. A category is a dict
      of text; text is a string of bytes, and lower-casing and [.] are
      those of ASCII text: what is proved of the search beyond blank and
      refused terms is proved of ASCII text.
    - A [DataFrame] keeps the column labels next to the rows, because
      [df[c]] raises [KeyError] for a label that no record carries.
    - Exceptions are values of [exn]; code that can raise lives in the
      [ui] monad, which also records what the page shows ([st.*] calls).
    - The HTTP layer, the user's widget input, plotly's chart
      construction, pandas' reductions and Python's number formatting are
      outside the repository: they are the fields of [World]. *)

From Stdlib Require Import ZArith QArith Bool Ascii String List Lia.
From Stdlib Require SpecFloat.
From stdpp Require Import base option list gmap strings fin_maps.

Local Open Scope string_scope.
Local Open Scope Z_scope.

(** ** Exceptions and results *)

Inductive exn : Type :=
| KeyError (key : string)
| IndexError (msg : string)
| ValueError (msg : string)
| ReError (msg : string)
| ConnectionError (msg : string)
| HTTPError (status : Z)
| JSONDecodeError (msg : string)
| OverflowError (msg : string)
| ChartError (msg : string).

(** [isinstance(e, requests.RequestException)]: transport errors, the
    [HTTPError] of [raise_for_status] and the [JSONDecodeError] of requests
    itself. Every [exn] is an [Exception]. *)
Definition is_RequestException (e : exn) : bool :=
  match e with
  | ConnectionError _ | HTTPError _ | JSONDecodeError _ => true
  | _ => false
  end.

Inductive result (A : Type) : Type :=
| Ok (a : A)
| Raise (e : exn).
Arguments Ok {A} a.
Arguments Raise {A} e.

Definition is_Ok {A} (r : result A) : bool :=
  match r with Ok _ => true | Raise _ => false end.

(** ** Numbers, cells and series *)

(** Python values stored in the metrics dict. *)
Inductive pyval : Type :=
| PInt (n : Z)
| PFloat (q : Q)
| PInf (negative : bool)
| PNaN.

(** [pd.isna(v)] on a scalar. *)
Definition pd_isna (v : pyval) : bool :=
  match v with PNaN => true | _ => false end.

(** The number a defined value stands for. *)
Definition pyval_Q (v : pyval) : option Q :=
  match v with
  | PInt n => Some (inject_Z n)
  | PFloat q => Some q
  | PInf _ | PNaN => None
  end.

(** A cell of a numeric column: [None] is NaN. *)
Abbreviation cell := (option Q).

(** [0 < q] on rationals, as a boolean. *)
Definition Qpos_b (q : Q) : bool := 0 <? Qnum q.

(** [s.notna()] *)
Definition notna {V} (s : list (option V)) : list bool :=
  map (fun c => match c with Some _ => true | None => false end) s.

(** [s > 0]: a comparison with NaN is False. *)
Definition gt0 (s : list cell) : list bool :=
  map (fun c => match c with Some q => Qpos_b q | None => false end) s.

(** [m1 & m2] on boolean series of one frame. *)
Definition mask_and (m1 m2 : list bool) : list bool :=
  zip_with andb m1 m2.

(** The values of a series that are present. *)
Fixpoint present {V} (s : list (option V)) : list V :=
  match s with
  | [] => []
  | Some v :: s' => v :: present s'
  | None :: s' => present s'
  end.

Definition Qsum (l : list Q) : Q := fold_right Qplus 0%Q l.

(** ** Data frames *)

Record DataFrame (V : Type) : Type := mkDataFrame {
  columns : gset string;
  rows : list (gmap string V)
}.
Arguments mkDataFrame {V} columns rows.
Arguments columns {V} d.
Arguments rows {V} d.

(** [pd.DataFrame(records)] for a list of dicts: the columns are the union
    of the keys; a key a record lacks reads as NaN there. *)
Definition pd_DataFrame {V} (records : list (gmap string V)) : DataFrame V :=
  mkDataFrame (⋃ (dom <$> records)) records.

(** [len(df)] *)
Definition df_len {V} (df : DataFrame V) : nat := length (rows df).

(** [df.empty]: some axis has length zero. *)
Definition df_empty {V} (df : DataFrame V) : bool :=
  bool_decide (columns df = ∅) ||
  match rows df with [] => true | _ => false end.

(** [df[c]]: the column, or [KeyError]. *)
Definition getitem {V} (df : DataFrame V) (c : string)
  : result (list (option V)) :=
  if bool_decide (c ∈ columns df)
  then Ok (map (fun r => r !! c) (rows df))
  else Raise (KeyError c).

(** A numeric column of an asset frame: a JSON null and a missing key are
    both NaN. *)
Definition getnum (df : DataFrame cell) (c : string) : result (list cell) :=
  match getitem df c with
  | Ok s => Ok (map mjoin s)
  | Raise e => Raise e
  end.

(** [df[mask]]: the rows whose mask entry is True, columns unchanged. *)
Fixpoint select_rows {A} (l : list A) (mask : list bool) : list A :=
  match l, mask with
  | x :: l', b :: mask' =>
      if b then x :: select_rows l' mask' else select_rows l' mask'
  | _, _ => []
  end.

Definition df_mask {V} (df : DataFrame V) (mask : list bool) : DataFrame V :=
  mkDataFrame (columns df) (select_rows (rows df) mask).

(** ** What the page shows, and the [ui] monad *)

(** A chart is determined by the frame it was built from and its fixed
    options. *)
Inductive figure : Type :=
| Treemap (data : DataFrame cell) (root : string)
| Histogram (data : DataFrame cell) (nbins : Z)
| Scatter (data : DataFrame cell).

(** A text shown to the user; [MsgExn t e] is the f-string [f"{t}{e}"]. *)
Inductive message : Type :=
| Msg (text : string)
| MsgExn (text : string) (e : exn).

Inductive ui_event : Type :=
| StTitle (text : string)
| StHeader (text : string)
| StSubheader (text : string)
| StTextInput (label : string)
| StSelectbox (label : string) (options : list (option string))
| StError (m : message)
| StWarning (m : message)
| StMetric (label template : string) (value : pyval)
| StPlotlyChart (fig : figure).

(** A computation shows things and then returns or raises. *)
Definition ui (A : Type) : Type := (list ui_event * result A)%type.

Definition ret {A} (a : A) : ui A := ([], Ok a).
Definition lift {A} (r : result A) : ui A := ([], r).
Definition say (e : ui_event) : ui unit := ([e], Ok tt).

Definition bind {A B} (m : ui A) (k : A -> ui B) : ui B :=
  match m with
  | (log, Ok a) => let '(log', r) := k a in ((log ++ log')%list, r)
  | (log, Raise e) => (log, Raise e)
  end.

Notation "'let*' x ':=' m 'in' k" := (bind m (fun x => k))
  (at level 10, x name, m at level 200, k at level 200).

(** [try: body  except C as e: handler e], where [catches] decides
    [isinstance(e, C)]. What the body showed before raising stays. *)
Definition try_except {A} (body : ui A) (catches : exn -> bool)
    (handler : exn -> ui A) : ui A :=
  match body with
  | (log, Raise e) =>
      if catches e
      then let '(log', r) := handler e in ((log ++ log')%list, r)
      else (log, Raise e)
  | (log, Ok a) => (log, Ok a)
  end.

Definition any_Exception (e : exn) : bool := true.

Definition shown {A} (m : ui A) : list ui_event := fst m.
Definition outcome {A} (m : ui A) : result A := snd m.

(** ** The world outside the repository *)

(** What a GET comes to: no response at all, a response whose body is the
    JSON [payload], or a response whose body is not JSON, on which
    [response.json()] raises [e]. *)
Inductive http_outcome (A : Type) : Type :=
| Transport (msg : string)
| Response (status : Z) (payload : A)
| NotJson (status : Z) (e : exn).
Arguments Transport {A} msg.
Arguments Response {A} status payload.
Arguments NotJson {A} status e.

Record World : Type := mkWorld {
  (** GET /coins/categories/list *)
  http_categories : http_outcome (list (gmap string string));
  (** GET /coins/markets for a category id *)
  http_markets : option string -> http_outcome (list (gmap string cell));
  (** the content of the search box *)
  search_text : string;
  (** the entry the user picked in the dropdown, if any *)
  picked : option nat;
  (** Python's [re] on patterns beyond literals and [.] *)
  re_other : string -> result (string -> bool);
  (** whether plotly fails to build a chart *)
  chart_fails : figure -> option exn;
  (** pandas' [sum] of a column whose present values are these *)
  np_sum : list Q -> pyval;
  (** pandas' [mean] of a column whose present values are these *)
  np_mean : list Q -> pyval;
  (** what formatting a value with a format spec raises, if anything *)
  format_error : string -> pyval -> option exn
}.

(** ** The two fetchers *)

(** [requests.get]: a transport failure raises; a response is its status
    and what [json()] will give. *)
Definition requests_get {A} (o : http_outcome A) : result (Z * result A) :=
  match o with
  | Transport msg => Raise (ConnectionError msg)
  | Response status payload => Ok (status, Ok payload)
  | NotJson status e => Ok (status, Raise e)
  end.

(** [response.json()] *)
Definition response_json {A} (response : Z * result A) : result A :=
  snd response.

(** [response.raise_for_status()]: 4xx and 5xx raise [HTTPError]. *)
Definition raise_for_status {A} (response : Z * A) : result unit :=
  if (400 <=? fst response) && (fst response <? 600)
  then Raise (HTTPError (fst response))
  else Ok tt.

Definition fetch_categories (w : World)
  : ui (option (list (gmap string string))) :=
  try_except
    (let* response := lift (requests_get (http_categories w)) in
     let* _ := lift (raise_for_status response) in
     let* payload := lift (response_json response) in
     ret (Some payload))
    is_RequestException
    (fun e =>
       let* _ := say (StError (MsgExn "Error fetching categories: " e)) in
       ret None).

Definition fetch_category_data (w : World) (category_id : option string)
  : ui (option (list (gmap string cell))) :=
  try_except
    (let* response := lift (requests_get (http_markets w category_id)) in
     let* _ := lift (raise_for_status response) in
     let* payload := lift (response_json response) in
     ret (Some payload))
    is_RequestException
    (fun e =>
       let* _ := say (StError (MsgExn "Error fetching category data: " e)) in
       ret None).

(** ** Chart construction *)

(** A plotly call either fails or yields the chart of its arguments. *)
Definition px (w : World) (fig : figure) : result figure :=
  match chart_fails w fig with
  | Some e => Raise e
  | None => Ok fig
  end.

Definition safe_treemap (w : World) (df : DataFrame cell)
    (selected_category : string) : ui (option figure) :=
  try_except
    (let* mc := lift (getnum df "market_cap") in
     let df_filtered := df_mask df (mask_and (notna mc) (gt0 mc)) in
     if df_empty df_filtered then
       let* _ := say (StWarning (Msg
         "No valid market cap data available for treemap visualization.")) in
       ret None
     else
       let* fig_treemap := lift (px w (Treemap df_filtered selected_category)) in
       ret (Some fig_treemap))
    any_Exception
    (fun e =>
       let* _ :=
         say (StWarning (MsgExn "Could not create treemap visualization: " e)) in
       ret None).

(** ** The metrics aggregator *)

Definition zero_metrics : gmap string pyval :=
  {[ "total_tokens" := PInt 0;
     "total_market_cap" := PInt 0;
     "total_volume" := PInt 0;
     "avg_24h_change" := PInt 0 ]}.

(** [0 if pd.isna(v) else v] *)
Definition nan_to_zero (v : pyval) : pyval :=
  if pd_isna v then PInt 0 else v.

(** [s.sum()]: NaN is skipped, and the sum of nothing is 0. *)
Definition series_sum (w : World) (s : list cell) : pyval :=
  match present s with
  | [] => PFloat 0
  | v :: vs => np_sum w (v :: vs)
  end.

(** [s.mean()]: NaN is skipped, and the mean of nothing is NaN. *)
Definition series_mean (w : World) (s : list cell) : pyval :=
  match present s with
  | [] => PNaN
  | v :: vs => np_mean w (v :: vs)
  end.

(** The body of the [try] (lines 83 to 90). *)
Definition metrics_try (w : World) (df : DataFrame cell)
  : ui (gmap string pyval) :=
  let total_tokens := PInt (Z.of_nat (df_len df)) in
  let* mc := lift (getnum df "market_cap") in
  let* vol := lift (getnum df "total_volume") in
  let* pc := lift (getnum df "price_change_percentage_24h") in
  let metrics : gmap string pyval :=
    {[ "total_tokens" := total_tokens;
       "total_market_cap" := series_sum w mc;
       "total_volume" := series_sum w vol;
       "avg_24h_change" := series_mean w pc ]} in
  ret (nan_to_zero <$> metrics).

Definition safe_metrics (w : World) (df : DataFrame cell)
  : ui (gmap string pyval) :=
  try_except
    (metrics_try w df)
    any_Exception
    (fun e =>
       let* _ := say (StWarning (MsgExn "Error calculating metrics: " e)) in
       ret zero_metrics).

(** ** Text: lower-casing and pattern search *)

(** [str.lower] on ASCII text, where it maps A to Z and nothing else;
    other bytes are left as they are, so that a property that depends on
    the lowered text is stated for ASCII text (see [is_ascii]). *)
Definition lower_ascii (a : ascii) : ascii :=
  let n := nat_of_ascii a in
  if (65 <=? n)%nat && (n <=? 90)%nat then ascii_of_nat (n + 32) else a.

Fixpoint lower (s : string) : string :=
  match s with
  | EmptyString => EmptyString
  | String a s' => String (lower_ascii a) (lower s')
  end.

(** [Series.str.contains(pat)] is called with its defaults, so [pat] is a
    regular expression handed to [re.compile] and tried with [search] on
    every entry. Patterns made of ordinary characters and [.] are
    interpreted here; for any other syntax the compiled pattern is taken
    from the world. *)
Inductive re_item : Type :=
| ReChar (a : ascii)
| ReDot.

Definition re_special (a : ascii) : bool :=
  existsb (Ascii.eqb a) (list_ascii_of_string ".^$*+?{}[]\|()").

Fixpoint re_parse (pat : string) : option (list re_item) :=
  match pat with
  | EmptyString => Some []
  | String a pat' =>
      if Ascii.eqb a "." then cons ReDot <$> re_parse pat'
      else if re_special a then None
      else cons (ReChar a) <$> re_parse pat'
  end.

(** [.] matches any character except a newline. *)
Definition item_matches (i : re_item) (a : ascii) : bool :=
  match i with
  | ReChar c => Ascii.eqb c a
  | ReDot => negb (Ascii.eqb a "010")
  end.

Fixpoint match_here (items : list re_item) (s : string) : bool :=
  match items, s with
  | [], _ => true
  | i :: items', String a s' => item_matches i a && match_here items' s'
  | _ :: _, EmptyString => false
  end.

Fixpoint re_search (items : list re_item) (s : string) : bool :=
  match_here items s ||
  match s with
  | String _ s' => re_search items s'
  | EmptyString => false
  end.

Definition re_compile (w : World) (pat : string) : result (string -> bool) :=
  match re_parse pat with
  | Some items => Ok (re_search items)
  | None => re_other w pat
  end.

(** [s.str.lower()]: NaN stays NaN. *)
Definition str_lower (s : list (option string)) : list (option string) :=
  map (fmap lower) s.

(** [s.str.contains(pat)]: NaN stays NaN. *)
Definition str_contains (w : World) (s : list (option string)) (pat : string)
  : result (list (option bool)) :=
  match re_compile w pat with
  | Ok found => Ok (map (fmap found) s)
  | Raise e => Raise e
  end.

(** [df[mask]] refuses a mask that holds NaN. *)
Definition bool_mask (mask : list (option bool)) : result (list bool) :=
  if forallb (fun c => match c with Some _ => true | None => false end) mask
  then Ok (present mask)
  else Raise (ValueError
         "Cannot mask with non-boolean array containing NA / NaN values").

(** [s == v] against a scalar: NaN equals nothing. *)
Definition series_eq (s : list (option string)) (v : option string)
  : list bool :=
  map (fun c => match c, v with
                | Some x, Some y => String.eqb x y
                | _, _ => false
                end) s.

(** [s.iloc[0]] *)
Definition iloc0 {A} (s : list A) : result A :=
  match s with
  | x :: _ => Ok x
  | [] => Raise (IndexError "single positional indexer is out-of-bounds")
  end.

(** [d[k]] on a Python dict. *)
Definition dict_getitem {V} (d : gmap string V) (k : string) : result V :=
  match d !! k with
  | Some v => Ok v
  | None => Raise (KeyError k)
  end.

(** [st.selectbox(label, options, index)]: the user's pick, or the entry
    at [index] while the widget is untouched. *)
Definition st_selectbox (w : World) (label : string)
    (options : list (option string)) (index : nat) : ui (option string) :=
  let* _ := say (StSelectbox label options) in
  let i := match picked w with
           | Some i => if (i <? length options)%nat then i else index
           | None => index
           end in
  ret (mjoin (options !! i)).

(** [f"{v}"] of a cell of text. *)
Definition show_cell (c : option string) : string := default "nan" c.

(** ** The page *)

(** [f"{v:spec}"]: the text itself is not represented, its failure is. *)
Definition py_format (w : World) (spec : string) (v : pyval) : result unit :=
  match format_error w spec v with
  | Some e => Raise e
  | None => Ok tt
  end.

(** One tile: the entry is read, formatted, and shown. *)
Definition metric_tile (w : World) (metrics : gmap string pyval)
    (label template spec key : string) : ui unit :=
  let* value := lift (dict_getitem metrics key) in
  let* _ := lift (py_format w spec value) in
  say (StMetric label template value).

(** The four metric tiles (lines 140 to 150). *)
Definition metric_tiles (w : World) (selected_category : string)
    (metrics : gmap string pyval) : ui unit :=
  let* _ := say (StHeader ("📊 " ++ selected_category ++ " Overview")) in
  let* _ := metric_tile w metrics
              "Number of Tokens" "{:,}" "," "total_tokens" in
  let* _ := metric_tile w metrics
              "Total Market Cap" "${:,.0f}" ",.0f" "total_market_cap" in
  let* _ := metric_tile w metrics
              "24h Volume" "${:,.0f}" ",.0f" "total_volume" in
  metric_tile w metrics "Avg 24h Change" "{:.2f}%" ".2f" "avg_24h_change".

(** The treemap (lines 152 to 154). *)
Definition treemap_block (w : World) (df : DataFrame cell)
    (selected_category : string) : ui unit :=
  let* fig_treemap := safe_treemap w df selected_category in
  match fig_treemap with
  | Some fig => say (StPlotlyChart fig)
  | None => ret tt
  end.

(** The histogram of the 24h change (lines 161 to 170). *)
Definition histogram_block (w : World) (df : DataFrame cell) : ui unit :=
  try_except
    (let* pc := lift (getnum df "price_change_percentage_24h") in
     let* fig_hist := lift (px w (Histogram (df_mask df (notna pc)) 20)) in
     say (StPlotlyChart fig_hist))
    any_Exception
    (fun _ =>
       say (StWarning (Msg
         "Could not create price change distribution chart."))).

(** The rows the scatter plot is built from (lines 174 to 179). *)
Definition scatter_filter (df : DataFrame cell) : result (DataFrame cell) :=
  match getnum df "market_cap", getnum df "total_volume" with
  | Ok mc, Ok vol =>
      Ok (df_mask df
            (mask_and (mask_and (mask_and (notna mc) (notna vol)) (gt0 mc))
                      (gt0 vol)))
  | Raise e, _ => Raise e
  | Ok _, Raise e => Raise e
  end.

(** The scatter plot (lines 173 to 196). *)
Definition scatter_block (w : World) (df : DataFrame cell) : ui unit :=
  try_except
    (let* df_filtered := lift (scatter_filter df) in
     if negb (df_empty df_filtered) then
       let* fig_scatter := lift (px w (Scatter df_filtered)) in
       say (StPlotlyChart fig_scatter)
     else
       say (StWarning (Msg
         "Insufficient data for volume vs market cap visualization.")))
    any_Exception
    (fun _ =>
       say (StWarning (Msg "Could not create volume vs market cap chart."))).

(** The three charts (lines 152 to 196). *)
Definition charts (w : World) (df : DataFrame cell)
    (selected_category : string) : ui unit :=
  let* _ := treemap_block w df selected_category in
  if negb (df_empty df) then
    let* _ := say (StSubheader "Performance Analysis") in
    let* _ := histogram_block w df in
    scatter_block w df
  else ret tt.

(** Lines 132 to 196: fetch the category and render it. An empty list and
    [None] are both falsy for [if category_data:]. *)
Definition render_category (w : World) (selected_category : string)
    (selected_id : option string) : ui unit :=
  let* category_data := fetch_category_data w selected_id in
  match category_data with
  | None | Some [] => ret tt
  | Some records =>
      let df := pd_DataFrame records in
      let* metrics := safe_metrics w df in
      let* _ := metric_tiles w selected_category metrics in
      charts w df selected_category
  end.

(** Lines 115 to 117: the categories the search keeps. *)
Definition filter_categories (w : World) (categories_df : DataFrame string)
    (search_term : string) : result (DataFrame string) :=
  match getitem categories_df "name" with
  | Raise e => Raise e
  | Ok names =>
      match str_contains w (str_lower names) search_term with
      | Raise e => Raise e
      | Ok found =>
          match bool_mask found with
          | Raise e => Raise e
          | Ok mask => Ok (df_mask categories_df mask)
          end
      end
  end.

(** Lines 125 to 127: the id of the first record named as selected. *)
Definition resolve_id (filtered_categories : DataFrame string)
    (selected_category : option string) : result (option string) :=
  match getitem filtered_categories "name" with
  | Raise e => Raise e
  | Ok names =>
      match getitem
              (df_mask filtered_categories (series_eq names selected_category))
              "category_id" with
      | Raise e => Raise e
      | Ok ids => iloc0 ids
      end
  end.

Definition main (w : World) : ui unit :=
  let* _ := say (StTitle "🔍 DTF Scope") in
  let* categories := fetch_categories w in
  match categories with
  | None | Some [] =>
      say (StError (Msg "Failed to fetch categories. Please try again later."))
  | Some cats =>
      let categories_df := pd_DataFrame cats in
      let* _ := say (StHeader "Category Selection") in
      let* _ := say (StTextInput "Search Categories") in
      let search_term := lower (search_text w) in
      let* filtered_categories :=
        lift (filter_categories w categories_df search_term) in
      if negb (df_empty filtered_categories) then
        let* options := lift (getitem filtered_categories "name") in
        let* selected_category := st_selectbox w "Select Category" options 0 in
        let* selected_id :=
          lift (resolve_id filtered_categories selected_category) in
        render_category w (show_cell selected_category) selected_id
      else
        say (StWarning (Msg "No categories found matching your search."))
  end.

(** ** Vocabulary of the properties *)

(** The values of field [c] over a list of records. *)
Definition field (c : string) (records : list (gmap string cell)) : list cell :=
  map (fun r => mjoin (r !! c)) records.

(** Some record has the key [c]. *)
Definition carries {V} (c : string) (records : list (gmap string V)) : bool :=
  existsb (fun r => bool_decide (is_Some (r !! c))) records.

Definition aggregated_fields : list string :=
  ["market_cap"; "total_volume"; "price_change_percentage_24h"].

Definition Qmean_or_zero (l : list Q) : Q :=
  match l with
  | [] => 0%Q
  | _ => (Qsum l / inject_Z (Z.of_nat (length l)))%Q
  end.

(** A pandas on data that needs no rounding: its sums and means are the
    exact ones. *)
Definition exact_sum (vs : list Q) : pyval := PFloat (Qsum vs).
Definition exact_mean (vs : list Q) : pyval :=
  PFloat (Qsum vs / inject_Z (Z.of_nat (length vs)))%Q.

(** A Python in which formatting a number never fails. *)
Definition formats_all (spec : string) (v : pyval) : option exn := None.

(** Entry [k] of the summary is a number equal to [q]. *)
Definition reads (m : gmap string pyval) (k : string) (q : Q) : Prop :=
  exists v q', m !! k = Some v /\ pyval_Q v = Some q' /\ (q' == q)%Q.

Definition summarises (records : list (gmap string cell))
    (m : gmap string pyval) : Prop :=
  m !! "total_tokens" = Some (PInt (Z.of_nat (length records))) /\
  reads m "total_market_cap" (Qsum (present (field "market_cap" records))) /\
  reads m "total_volume" (Qsum (present (field "total_volume" records))) /\
  reads m "avg_24h_change"
    (Qmean_or_zero (present (field "price_change_percentage_24h" records))).

(** The aggregated fields are all columns of the frame. *)
Definition frame_ready (records : list (gmap string cell)) : bool :=
  forallb (fun c => carries c records) aggregated_fields.

Definition metric_keys : list string :=
  ["total_tokens"; "total_market_cap"; "total_volume"; "avg_24h_change"].

(** Every entry of the summary is there and is not NaN. *)
Definition fully_defined (m : gmap string pyval) : bool :=
  forallb (fun k => match m !! k with
                    | Some v => negb (pd_isna v)
                    | None => false
                    end) metric_keys.

(** Three records that carry nothing but their 24h change. *)
Definition change_only : list (gmap string cell) :=
  [ {[ "price_change_percentage_24h" := Some 10%Q ]};
    {[ "price_change_percentage_24h" := None ]};
    {[ "price_change_percentage_24h" := Some (-4)%Q ]} ].

(** The same changes on records whose other aggregated fields are null. *)
Definition change_among_nulls : list (gmap string cell) :=
  map (fun r => <["market_cap" := None]> (<["total_volume" := None]> r))
      change_only.

(** The market cap of a record is present and strictly positive. *)
Definition mc_positive (r : gmap string cell) : bool :=
  match mjoin (r !! "market_cap") with
  | Some mc => Qpos_b mc
  | None => false
  end.

(** Market cap and volume are both present and strictly positive. *)
Definition both_positive (r : gmap string cell) : bool :=
  match mjoin (r !! "market_cap"), mjoin (r !! "total_volume") with
  | Some mc, Some vol => Qpos_b mc && Qpos_b vol
  | _, _ => false
  end.

Definition is_warning (ev : ui_event) : bool :=
  match ev with StWarning _ => true | _ => false end.

Definition is_treemap (fig : figure) : bool :=
  match fig with Treemap _ _ => true | _ => false end.
Definition is_histogram (fig : figure) : bool :=
  match fig with Histogram _ _ => true | _ => false end.
Definition is_scatter (fig : figure) : bool :=
  match fig with Scatter _ => true | _ => false end.

(** Two worlds in which plotly behaves alike on the charts of one kind. *)
Definition same_charts (kind : figure -> bool) (w w' : World) : Prop :=
  forall fig, kind fig = true -> chart_fails w fig = chart_fails w' fig.

(** A block ends normally after showing one thing: a warning, or a chart
    of its own kind that plotly built. *)
Definition isolated (w : World) (kind : figure -> bool) (block : ui unit)
  : Prop :=
  outcome block = Ok tt /\
  exists ev, shown block = [ev] /\
    (is_warning ev = true \/
     exists fig, ev = StPlotlyChart fig /\ kind fig = true /\
                 chart_fails w fig = None).

(** The records of the scatter example: (100, 50), (null, 10), (0, 5). *)
Definition scatter_example : list (gmap string cell) :=
  [ {[ "market_cap" := Some 100%Q; "total_volume" := Some 50%Q ]};
    {[ "market_cap" := None; "total_volume" := Some 10%Q ]};
    {[ "market_cap" := Some 0%Q; "total_volume" := Some 5%Q ]} ].

(** A world in which every request is answered with an empty list, the
    widgets are untouched, plotly builds every chart, pandas adds without
    rounding and formatting never fails. *)
Definition quiet_world : World :=
  mkWorld (Response 200 []) (fun _ => Response 200 []) "" None
          (fun _ => Raise (ReError "unsupported pattern")) (fun _ => None)
          exact_sum exact_mean formats_all.

(** A world in which plotly fails on every chart. *)
Definition chartless_world : World :=
  mkWorld (Response 200 []) (fun _ => Response 200 []) "" None
          (fun _ => Raise (ReError "unsupported pattern"))
          (fun _ => Some (ChartError "plotly failed"))
          exact_sum exact_mean formats_all.

(** A world in which plotly fails on treemaps and on nothing else. *)
Definition treemapless_world : World :=
  mkWorld (Response 200 []) (fun _ => Response 200 []) "" None
          (fun _ => Raise (ReError "unsupported pattern"))
          (fun fig => if is_treemap fig
                      then Some (ChartError "plotly failed") else None)
          exact_sum exact_mean formats_all.

(** A transport failure, or a status that [raise_for_status] rejects. *)
Definition http_failed {A} (o : http_outcome A) : bool :=
  match o with
  | Transport _ => true
  | Response status _ | NotJson status _ =>
      (400 <=? status) && (status <? 600)
  end.

(** The exception a failed request ends in. *)
Definition http_exn {A} (o : http_outcome A) : exn :=
  match o with
  | Transport msg => ConnectionError msg
  | Response status _ | NotJson status _ => HTTPError status
  end.

Definition is_metric (ev : ui_event) : bool :=
  match ev with StMetric _ _ _ => true | _ => false end.

(** A category dict as the catalog endpoint serves it. *)
Definition category (id name : string) : gmap string string :=
  {[ "category_id" := id; "name" := name ]}.

(** A world whose catalog holds DeFi and NFT Index, whose market endpoint
    answers every category with an empty list, and whose user has typed
    [text] and left the dropdown alone. *)
Definition empty_market_world (text : string) : World :=
  mkWorld (Response 200 [category "defi" "DeFi";
                         category "nft-index" "NFT Index"])
          (fun _ => Response 200 []) text None
          (fun _ => Raise (ReError "unsupported pattern")) (fun _ => None)
          exact_sum exact_mean formats_all.

(** A world whose catalog request times out. *)
Definition offline_world : World :=
  mkWorld (Transport "timed out") (fun _ => Response 503 []) "" None
          (fun _ => Raise (ReError "unsupported pattern")) (fun _ => None)
          exact_sum exact_mean formats_all.

(** [t] occurs in [s] as a run of consecutive characters. *)
Definition is_substring (t s : string) : Prop :=
  exists pre post, s = pre ++ t ++ post.

(** No character of the pattern has a meaning in a regular expression. *)
Definition re_plain (pat : string) : bool :=
  forallb (fun a => negb (re_special a)) (list_ascii_of_string pat).

(** The pattern that matches the text [t] literally. *)
Definition re_literal (t : string) : list re_item :=
  map ReChar (list_ascii_of_string t).

Definition named (r : gmap string string) : bool :=
  bool_decide (is_Some (r !! "name")).

(** The lowered name of the record is accepted by [found]. *)
Definition name_matches (found : string -> bool) (r : gmap string string)
  : bool :=
  match r !! "name" with
  | Some n => found (lower n)
  | None => false
  end.

(** The catalog of the search example: DeFi and NFT Index, names only. *)
Definition name_catalog : list (gmap string string) :=
  [ {[ "name" := "DeFi" ]}; {[ "name" := "NFT Index" ]} ].

(** The first record of the catalog that is named [selection]. *)
Definition first_named (selection : string)
    (cats : list (gmap string string)) : option (gmap string string) :=
  find (fun r => match r !! "name" with
                 | Some n => String.eqb n selection
                 | None => false
                 end) cats.

(** A world with the given catalog and search text, whose market endpoint
    answers with an empty list, whose dropdown is untouched, and in which
    every pattern beyond the interpreted fragment is refused. *)
Definition catalog_world (cats : list (gmap string string)) (text : string)
  : World :=
  mkWorld (Response 200 cats) (fun _ => Response 200 []) text None
          (fun _ => Raise (ReError "unsupported pattern")) (fun _ => None)
          exact_sum exact_mean formats_all.

(** The first aggregated field that is not a column of the frame. *)
Definition first_missing (records : list (gmap string cell)) : option string :=
  find (fun c => negb (carries c records)) aggregated_fields.

(** The 24h change of a record is present. *)
Definition has_change (r : gmap string cell) : bool :=
  match mjoin (r !! "price_change_percentage_24h") with
  | Some _ => true
  | None => false
  end.

(** Two summaries hold equal numbers under every key. *)
Definition same_summary (m m' : gmap string pyval) : Prop :=
  forall k, In k metric_keys ->
    exists v v' q q',
      m !! k = Some v /\ m' !! k = Some v' /\
      pyval_Q v = Some q /\ pyval_Q v' = Some q' /\ (q == q')%Q.

(** The four tiles, in the order of the page. *)
Definition tiles (total_tokens total_market_cap total_volume avg_24h_change
                  : pyval) : list ui_event :=
  [ StMetric "Number of Tokens" "{:,}" total_tokens;
    StMetric "Total Market Cap" "${:,.0f}" total_market_cap;
    StMetric "24h Volume" "${:,.0f}" total_volume;
    StMetric "Avg 24h Change" "{:.2f}%" avg_24h_change ].

(** Two categories under one name. *)
Definition twin_catalog : list (gmap string string) :=
  [ category "layer-1" "Layer"; category "layer-2" "Layer" ].

(** Records whose 24h change is null throughout. *)
Definition unchanged_records : list (gmap string cell) :=
  [ {[ "market_cap" := Some 7%Q; "total_volume" := Some 2%Q;
       "price_change_percentage_24h" := None ]};
    {[ "market_cap" := Some 5%Q; "total_volume" := None;
       "price_change_percentage_24h" := None ]} ].

(** A world whose market endpoint answers every category with the given
    records and whose plotly builds every chart. *)
Definition assets_world (records : list (gmap string cell)) : World :=
  mkWorld (Response 200 [category "defi" "DeFi"])
          (fun _ => Response 200 records) "" None
          (fun _ => Raise (ReError "unsupported pattern")) (fun _ => None)
          exact_sum exact_mean formats_all.

(** The lowered name of the record contains the text [t]. *)
Definition name_contains (t : string) (r : gmap string string) : bool :=
  name_matches (re_search (re_literal t)) r.

(** Two pages of records, each with the three aggregated fields. *)
Definition first_page : list (gmap string cell) :=
  [ {[ "market_cap" := Some 100%Q; "total_volume" := Some 50%Q;
       "price_change_percentage_24h" := Some 2%Q ]};
    {[ "market_cap" := None; "total_volume" := Some 10%Q;
       "price_change_percentage_24h" := None ]} ].

Definition second_page : list (gmap string cell) :=
  [ {[ "market_cap" := Some 40%Q; "total_volume" := None;
       "price_change_percentage_24h" := Some (-1)%Q ]} ].

(** pandas' sum of these values is their exact sum: no addition rounded
    or wrapped. *)
Definition sum_exact (w : World) (vs : list Q) : Prop :=
  vs = [] \/
  exists q, pyval_Q (np_sum w vs) = Some q /\ (q == Qsum vs)%Q.

(** pandas' mean of these values is their exact mean. *)
Definition mean_exact (w : World) (vs : list Q) : Prop :=
  vs = [] \/
  exists q, pyval_Q (np_mean w vs) = Some q /\ (q == Qmean_or_zero vs)%Q.

(** The arithmetic of pandas is exact on the three aggregated fields. *)
Definition exact_on (w : World) (records : list (gmap string cell)) : Prop :=
  sum_exact w (present (field "market_cap" records)) /\
  sum_exact w (present (field "total_volume" records)) /\
  mean_exact w (present (field "price_change_percentage_24h" records)).

(** Binary64 arithmetic, from the standard library's specification of
    IEEE 754: the double nearest to an integer and to a rational, and the
    value of a double. *)
Definition Z2SF (z : Z) : SpecFloat.spec_float :=
  SpecFloat.binary_normalize 53 1024 z 0 false.

Definition Q2SF (q : Q) : SpecFloat.spec_float :=
  SpecFloat.SFdiv 53 1024 (Z2SF (Qnum q)) (Z2SF (Zpos (Qden q))).

Definition SF2py (f : SpecFloat.spec_float) : pyval :=
  match f with
  | SpecFloat.S754_zero _ => PFloat 0
  | SpecFloat.S754_finite s m e =>
      let z := if s then Zneg m else Zpos m in
      PFloat (match e with
              | Zneg p => z # (2 ^ p)%positive
              | _ => inject_Z (z * 2 ^ e)
              end)
  | SpecFloat.S754_infinity s => PInf s
  | SpecFloat.S754_nan => PNaN
  end.

(** A pandas that adds doubles from left to right, as numpy does for
    fewer than eight values, and divides the sum by the count. *)
Definition binary64_sum (vs : list Q) : pyval :=
  SF2py (fold_left (SpecFloat.SFadd 53 1024) (map Q2SF vs)
           (SpecFloat.S754_zero false)).

Definition binary64_mean (vs : list Q) : pyval :=
  SF2py (SpecFloat.SFdiv 53 1024
           (fold_left (SpecFloat.SFadd 53 1024) (map Q2SF vs)
              (SpecFloat.S754_zero false))
           (Z2SF (Z.of_nat (length vs)))).

Definition binary64_world : World :=
  mkWorld (Response 200 []) (fun _ => Response 200 []) "" None
          (fun _ => Raise (ReError "unsupported pattern")) (fun _ => None)
          binary64_sum binary64_mean formats_all.

(** The doubles that the JSON numbers 0.1, 0.2 and 0.3 are read as. *)
Definition d0_1 : Q := 3602879701896397 # 36028797018963968.
Definition d0_2 : Q := 3602879701896397 # 18014398509481984.
Definition d0_3 : Q := 5404319552844595 # 18014398509481984.

(** Three assets with 24h volumes 0.1, 0.2 and 0.3. *)
Definition tenths : list (gmap string cell) :=
  map (fun vol : Q =>
         {[ "market_cap" := Some 1%Q; "total_volume" := Some vol;
            "price_change_percentage_24h" := Some 0%Q ]})
      [d0_1; d0_2; d0_3].

(** How a fetcher that reports errors under [prefix] answers the outcome
    [o] of its request: a failed request is reported and gives None; a
    body that parses is returned, silently; a body that does not parse is
    reported and gives None when the exception of [response.json()] is a
    [RequestException], and leaves the fetcher otherwise. *)
Definition answers {A} (prefix : string) (o : http_outcome A)
    (run : ui (option A)) : Prop :=
  (http_failed o = true ->
   run = ([StError (MsgExn prefix (http_exn o))], Ok None)) /\
  (forall status payload,
     o = Response status payload -> http_failed o = false ->
     run = ([], Ok (Some payload))) /\
  (forall status e,
     o = NotJson status e -> http_failed o = false ->
     run = if is_RequestException e
           then ([StError (MsgExn prefix e)], Ok None)
           else ([], Raise e)).

(** A world whose catalog endpoint answers 200 with a body that requests
    refuses as JSON, and whose market endpoint answers 200 with a body on
    which [response.json()] raises a plain ValueError. *)
Definition garbled_world : World :=
  mkWorld (NotJson 200 (JSONDecodeError "Expecting value"))
          (fun _ => NotJson 200 (ValueError "Expecting value")) "" None
          (fun _ => Raise (ReError "unsupported pattern")) (fun _ => None)
          exact_sum exact_mean formats_all.

(** The entries the four tiles read, each with its format spec. *)
Definition tile_formats : list (string * string) :=
  [ ("total_tokens", ","); ("total_market_cap", ",.0f");
    ("total_volume", ",.0f"); ("avg_24h_change", ".2f") ].

(** Every entry of the summary is there and can be formatted for its
    tile. *)
Definition formattable (w : World) (m : gmap string pyval) : bool :=
  forallb (fun '(key, spec) =>
             match m !! key with
             | Some v =>
                 match format_error w spec v with
                 | None => true
                 | Some _ => false
                 end
             | None => false
             end) tile_formats.

(** Python's formatting of numbers: presentation type [f] converts an int
    to float first, which fails from 2^1024 on; nothing else fails. *)
Definition python_format_error (spec : string) (v : pyval) : option exn :=
  match v with
  | PInt n =>
      if (String.eqb spec ",.0f" || String.eqb spec ".2f")
         && (2 ^ 1024 <=? Z.abs n)
      then Some (OverflowError "int too large to convert to float")
      else None
  | _ => None
  end.

Definition python_format_world : World :=
  mkWorld (Response 200 []) (fun _ => Response 200 []) "" None
          (fun _ => Raise (ReError "unsupported pattern")) (fun _ => None)
          exact_sum exact_mean python_format_error.

(** A summary whose market cap total is the int 2^1024. *)
Definition huge_summary : gmap string pyval :=
  {[ "total_tokens" := PInt 1;
     "total_market_cap" := PInt (2 ^ 1024);
     "total_volume" := PInt 0;
     "avg_24h_change" := PInt 0 ]}.

(** The text is ASCII: on such text [lower] is Python's [str.lower] and
    a character is a byte. *)
Definition is_ascii (s : string) : bool :=
  forallb (fun a => (nat_of_ascii a <? 128)%nat) (list_ascii_of_string s).

(** Every name of the catalog is ASCII. *)
Definition ascii_names (cats : list (gmap string string)) : bool :=
  forallb (fun r => match r !! "name" with
                    | Some n => is_ascii n
                    | None => true
                    end) cats.

(** Exactness of the arithmetic on concrete records, by evaluation. *)
Ltac exact_by_computation :=
  repeat split;
  first [ by left
        | right; eexists; split; [vm_compute; reflexivity | by vm_compute] ].

(** * Properties *)

(** ** Laws of the [ui] monad *)

Lemma bind_Ok {A B} (a : A) (k : A -> ui B) : bind (lift (Ok a)) k = k a.
Proof. unfold bind, lift. by destruct (k a). Qed.

Lemma bind_Raise {A B} (e : exn) (k : A -> ui B) :
  bind (lift (Raise e)) k = ([], Raise e).
Proof. reflexivity. Qed.

Lemma bind_say {B} (ev : ui_event) (k : unit -> ui B) :
  bind (say ev) k = (ev :: shown (k tt), outcome (k tt)).
Proof. unfold bind, say, shown, outcome. by destruct (k tt). Qed.

Lemma bind_shown {A B} (m : ui A) (k : A -> ui B) (log : list ui_event)
    (a : A) :
  m = (log, Ok a) ->
  bind m k = ((log ++ shown (k a))%list, outcome (k a)).
Proof. intros ->. unfold bind, shown, outcome. by destruct (k a). Qed.

Lemma try_Raise {A} (log : list ui_event) (e : exn)
    (handler : exn -> ui A) :
  try_except (log, Raise e) any_Exception handler
  = ((log ++ shown (handler e))%list, outcome (handler e)).
Proof.
  unfold try_except, any_Exception, shown, outcome. by destruct (handler e).
Qed.

(** A handler that cannot raise makes the whole [try] statement total. *)
Lemma try_any_total {A} (body : ui A) (handler : exn -> ui A) :
  (forall e, is_Ok (outcome (handler e)) = true) ->
  is_Ok (outcome (try_except body any_Exception handler)) = true.
Proof.
  intros H. destruct body as [log [a|e]]; [reflexivity|].
  rewrite try_Raise. apply H.
Qed.

(** ** Frames built from records *)

Lemma elem_of_columns {V} (c : string) (records : list (gmap string V)) :
  c ∈ columns (pd_DataFrame records) <-> carries c records = true.
Proof.
  unfold pd_DataFrame, carries; simpl.
  rewrite elem_of_union_list, existsb_exists. split.
  - intros (X & HX & Hc). apply list_elem_of_fmap in HX as (r & -> & Hr).
    exists r. split; [by apply list_elem_of_In|].
    apply bool_decide_eq_true. by apply elem_of_dom.
  - intros (r & Hr & Hc). exists (dom r). split.
    + apply list_elem_of_fmap. exists r. split; [done|]. by apply list_elem_of_In.
    + apply elem_of_dom. by apply bool_decide_eq_true in Hc.
Qed.

Lemma getnum_carried (c : string) (records : list (gmap string cell)) :
  carries c records = true ->
  getnum (pd_DataFrame records) c = Ok (field c records).
Proof.
  intros H. unfold getnum, getitem.
  rewrite bool_decide_eq_true_2 by (by apply elem_of_columns).
  simpl. unfold field. by rewrite map_map.
Qed.

Lemma getnum_missing (c : string) (records : list (gmap string cell)) :
  carries c records = false ->
  getnum (pd_DataFrame records) c = Raise (KeyError c).
Proof.
  intros H. unfold getnum, getitem.
  rewrite bool_decide_eq_false_2; [done|].
  rewrite elem_of_columns. congruence.
Qed.

(** ** The metrics aggregator *)

Lemma frame_ready_carries (records : list (gmap string cell)) :
  frame_ready records = true ->
  carries "market_cap" records = true /\
  carries "total_volume" records = true /\
  carries "price_change_percentage_24h" records = true.
Proof.
  unfold frame_ready, aggregated_fields. simpl.
  rewrite !andb_true_iff. tauto.
Qed.

Lemma metrics_try_ready (w : World) (records : list (gmap string cell)) :
  frame_ready records = true ->
  metrics_try w (pd_DataFrame records) =
  ([], Ok (nan_to_zero <$>
     ({[ "total_tokens" := PInt (Z.of_nat (length records));
         "total_market_cap" := series_sum w (field "market_cap" records);
         "total_volume" := series_sum w (field "total_volume" records);
         "avg_24h_change" :=
           series_mean w (field "price_change_percentage_24h" records) ]}
      : gmap string pyval))).
Proof.
  intros H. apply frame_ready_carries in H as (Hmc & Hvol & Hpc).
  unfold metrics_try.
  rewrite (getnum_carried _ _ Hmc), (getnum_carried _ _ Hvol),
    (getnum_carried _ _ Hpc).
  reflexivity.
Qed.

Lemma metrics_try_empty (w : World) :
  metrics_try w (pd_DataFrame []) = ([], Raise (KeyError "market_cap")).
Proof. reflexivity. Qed.

Lemma nan_to_zero_number (v : pyval) (q : Q) :
  pyval_Q v = Some q -> nan_to_zero v = v.
Proof. by destruct v. Qed.

Lemma nan_to_zero_defined (v : pyval) : pd_isna (nan_to_zero v) = false.
Proof. by destruct v. Qed.

Lemma reads_sum (w : World) (m : gmap string pyval) (k : string)
    (s : list cell) :
  m !! k = Some (nan_to_zero (series_sum w s)) ->
  sum_exact w (present s) ->
  reads m k (Qsum (present s)).
Proof.
  intros Hk Hexact. unfold reads, series_sum in *.
  destruct (present s) as [|v vs].
  - exists (PFloat 0), 0%Q. by split; [|split].
  - destruct Hexact as [|(q & Hq & Heq)]; [discriminate|].
    rewrite (nan_to_zero_number _ _ Hq) in Hk. eauto.
Qed.

Lemma reads_mean (w : World) (m : gmap string pyval) (k : string)
    (s : list cell) :
  m !! k = Some (nan_to_zero (series_mean w s)) ->
  mean_exact w (present s) ->
  reads m k (Qmean_or_zero (present s)).
Proof.
  intros Hk Hexact. unfold reads, series_mean in *.
  destruct (present s) as [|v vs].
  - exists (PInt 0), (inject_Z 0). by split; [|split].
  - destruct Hexact as [|(q & Hq & Heq)]; [discriminate|].
    rewrite (nan_to_zero_number _ _ Hq) in Hk. eauto.
Qed.




(** The average of the example: 10, null and -4 average to 3, also in
    binary64, once the records also carry market_cap and total_volume. *)
Example average_among_nulls :
  exists m,
    outcome (safe_metrics binary64_world (pd_DataFrame change_among_nulls))
    = Ok m /\
    reads m "avg_24h_change" 3 /\
    reads m "total_market_cap" 0 /\
    m !! "total_tokens" = Some (PInt 3).
Proof.
  eexists. split; [reflexivity|].
  split; [|split; [|reflexivity]];
    eexists _, _; (split; [reflexivity|]); by split.
Qed.


(** Records that lack the market_cap key altogether, as the literal
    records of the average example do, give the all-zero summary: the
    KeyError is caught. *)
Example safe_metrics_change_only (w : World) :
  outcome (safe_metrics w (pd_DataFrame change_only)) = Ok zero_metrics.
Proof. reflexivity. Qed.

(** C2: safe_metrics never raises; whenever the aggregation inside the
    try raises, the result is the all-zero summary; for the empty list of
    records it returns the all-zero summary. *)
Theorem safe_metrics_never_fails :
  (forall (w : World) (df : DataFrame cell),
     exists m, outcome (safe_metrics w df) = Ok m) /\
  (forall (w : World) (df : DataFrame cell) (e : exn),
     outcome (metrics_try w df) = Raise e ->
     outcome (safe_metrics w df) = Ok zero_metrics) /\
  (forall w : World,
     outcome (safe_metrics w (pd_DataFrame [])) = Ok zero_metrics) /\
  zero_metrics !! "total_tokens" = Some (PInt 0) /\
  zero_metrics !! "total_market_cap" = Some (PInt 0) /\
  zero_metrics !! "total_volume" = Some (PInt 0) /\
  zero_metrics !! "avg_24h_change" = Some (PInt 0).
Proof.
  split; [|split; [|by repeat split]].
  - intros w df. unfold safe_metrics, try_except, outcome.
    destruct (metrics_try w df) as [log [m|e]]; simpl; eauto.
  - intros w df e. unfold safe_metrics, try_except, outcome.
    destruct (metrics_try w df) as [log [m|e']]; simpl; [discriminate|done].
Qed.

Lemma safe_metrics_never_fails_witness :
  outcome (metrics_try quiet_world (pd_DataFrame change_only))
    = Raise (KeyError "market_cap") /\
  outcome (safe_metrics quiet_world (pd_DataFrame change_only))
    = Ok zero_metrics.
Proof.
  split; [reflexivity|].
  apply (proj1 (proj2 safe_metrics_never_fails) quiet_world _
           (KeyError "market_cap")).
  reflexivity.
Defined.

(** C3: for every frame, and whatever pandas' reductions return, the
    summary safe_metrics returns has its four entries and none of them is
    NaN. *)
Theorem safe_metrics_fully_defined (w : World) (df : DataFrame cell) :
  exists m,
    outcome (safe_metrics w df) = Ok m /\
    fully_defined m = true /\
    dom m = list_to_set metric_keys.
Proof.
  unfold safe_metrics, metrics_try.
  destruct (getnum df "market_cap") as [mc|e]; [|by exists zero_metrics].
  destruct (getnum df "total_volume") as [vol|e]; [|by exists zero_metrics].
  destruct (getnum df "price_change_percentage_24h") as [pc|e];
    [|by exists zero_metrics].
  eexists. split; [reflexivity|]. split.
  - unfold fully_defined, metric_keys. cbn [forallb].
    rewrite !lookup_fmap. cbn [fmap option_fmap option_map].
    repeat match goal with
           | |- context [({[ _ := _ ]} ∪ _) !! _] => fail
           | _ => idtac
           end.
    assert (Hl : forall a b c d : pyval,
              let m : gmap string pyval :=
                {[ "total_tokens" := a; "total_market_cap" := b;
                   "total_volume" := c; "avg_24h_change" := d ]} in
              m !! "total_tokens" = Some a /\
              m !! "total_market_cap" = Some b /\
              m !! "total_volume" = Some c /\
              m !! "avg_24h_change" = Some d) by done.
    destruct (Hl (PInt (Z.of_nat (df_len df))) (series_sum w mc)
                (series_sum w vol) (series_mean w pc))
      as (-> & -> & -> & ->).
    cbn [fmap option_fmap option_map].
    by rewrite !nan_to_zero_defined.
  - rewrite dom_fmap_L. reflexivity.
Qed.

(** ** Filters of the charts *)

Lemma Qpos_b_lt (q : Q) : Qpos_b q = true <-> (0 < q)%Q.
Proof.
  unfold Qpos_b, Qlt. simpl. rewrite Z.ltb_lt, Z.mul_1_r. reflexivity.
Qed.

Lemma treemap_rows (records : list (gmap string cell)) :
  select_rows records
    (mask_and (notna (field "market_cap" records))
              (gt0 (field "market_cap" records)))
  = List.filter mc_positive records.
Proof.
  induction records as [|r records IH]; [reflexivity|].
  simpl. unfold mc_positive at 1.
  destruct (mjoin (r !! "market_cap")) as [mc|]; simpl.
  - destruct (Qpos_b mc); by rewrite <- IH.
  - apply IH.
Qed.

Lemma scatter_rows (records : list (gmap string cell)) :
  select_rows records
    (mask_and
       (mask_and
          (mask_and (notna (field "market_cap" records))
                    (notna (field "total_volume" records)))
          (gt0 (field "market_cap" records)))
       (gt0 (field "total_volume" records)))
  = List.filter both_positive records.
Proof.
  induction records as [|r records IH]; [reflexivity|].
  simpl. unfold both_positive at 1.
  destruct (mjoin (r !! "market_cap")) as [mc|],
    (mjoin (r !! "total_volume")) as [vol|]; simpl; try apply IH.
  destruct (Qpos_b mc), (Qpos_b vol); simpl; by rewrite <- IH.
Qed.

Lemma mc_positive_spec (r : gmap string cell) :
  mc_positive r = true <->
  exists mc, r !! "market_cap" = Some (Some mc) /\ (0 < mc)%Q.
Proof.
  unfold mc_positive.
  destruct (r !! "market_cap") as [[mc|]|]; simpl.
  - rewrite Qpos_b_lt. split; [eauto|]. by intros (? & [= <-] & ?).
  - split; [done|]. by intros (? & ? & _).
  - split; [done|]. by intros (? & ? & _).
Qed.

Lemma both_positive_spec (r : gmap string cell) :
  both_positive r = true <->
  exists mc vol,
    r !! "market_cap" = Some (Some mc) /\
    r !! "total_volume" = Some (Some vol) /\
    (0 < mc)%Q /\ (0 < vol)%Q.
Proof.
  unfold both_positive.
  destruct (r !! "market_cap") as [[mc|]|],
    (r !! "total_volume") as [[vol|]|]; simpl;
    try (split; [done|]; by intros (? & ? & ? & ? & _)).
  rewrite andb_true_iff, !Qpos_b_lt. split.
  - intros [? ?]. by exists mc, vol.
  - by intros (? & ? & [= <-] & [= <-] & ? & ?).
Qed.

Lemma carries_false_lookup {V} (c : string) (records : list (gmap string V)) :
  carries c records = false -> Forall (fun r => r !! c = None) records.
Proof.
  unfold carries. intros H. apply Forall_forall. intros r Hr.
  destruct (r !! c) as [v|] eqn:Hc; [|done].
  assert (Hex : existsb (fun r => bool_decide (is_Some (r !! c))) records
                = true); [|congruence].
  apply existsb_exists. exists r. split; [by apply list_elem_of_In|].
  apply bool_decide_eq_true. by rewrite Hc.
Qed.

Lemma filter_nil_of_Forall {A} (p : A -> bool) (l : list A) :
  Forall (fun x => p x = false) l -> List.filter p l = [].
Proof.
  induction 1 as [|x l Hx _ IH]; [done|]. simpl. by rewrite Hx.
Qed.

Lemma columns_nonempty {V} (c : string) (records : list (gmap string V)) :
  carries c records = true ->
  bool_decide (columns (pd_DataFrame records) = ∅) = false.
Proof.
  intros H. apply bool_decide_eq_false. intros Hempty.
  apply elem_of_columns in H. rewrite Hempty in H. set_solver.
Qed.

Lemma treemap_frame (records : list (gmap string cell)) :
  df_mask (pd_DataFrame records)
    (mask_and (notna (field "market_cap" records))
              (gt0 (field "market_cap" records)))
  = mkDataFrame (columns (pd_DataFrame records))
                (List.filter mc_positive records).
Proof. unfold df_mask. simpl. by rewrite treemap_rows. Qed.

Lemma scatter_frame (records : list (gmap string cell)) :
  carries "market_cap" records = true ->
  carries "total_volume" records = true ->
  scatter_filter (pd_DataFrame records)
  = Ok (mkDataFrame (columns (pd_DataFrame records))
                    (List.filter both_positive records)).
Proof.
  intros Hmc Hvol. unfold scatter_filter.
  rewrite (getnum_carried _ _ Hmc), (getnum_carried _ _ Hvol).
  unfold df_mask. simpl. by rewrite scatter_rows.
Qed.

Lemma df_empty_rows {V} (c : string) (records rows' : list (gmap string V)) :
  carries c records = true ->
  df_empty (mkDataFrame (columns (pd_DataFrame records)) rows')
  = match rows' with [] => true | _ => false end.
Proof.
  intros H. unfold df_empty.
  change (columns (mkDataFrame (columns (pd_DataFrame records)) rows'))
    with (columns (pd_DataFrame records)).
  by rewrite (columns_nonempty _ _ H).
Qed.

(** C7: the frame safe_treemap builds its chart from holds exactly the
    records whose market cap is present and strictly positive; when no
    record qualifies, it returns None after one warning and does not
    raise. *)
Theorem safe_treemap_positive_only (w : World)
    (records : list (gmap string cell)) (selected_category : string) :
  let kept := List.filter mc_positive records in
  let df_filtered := mkDataFrame (columns (pd_DataFrame records)) kept in
  Forall (fun r => exists mc,
            r !! "market_cap" = Some (Some mc) /\ (0 < mc)%Q) kept /\
  (kept = [] ->
   exists m, safe_treemap w (pd_DataFrame records) selected_category
             = ([StWarning m], Ok None)) /\
  (kept <> [] ->
   safe_treemap w (pd_DataFrame records) selected_category
   = match chart_fails w (Treemap df_filtered selected_category) with
     | None => ([], Ok (Some (Treemap df_filtered selected_category)))
     | Some e =>
         ([StWarning (MsgExn "Could not create treemap visualization: " e)],
          Ok None)
     end).
Proof.
  intros kept df_filtered. split.
  { apply Forall_forall. intros r Hr. apply mc_positive_spec.
    apply list_elem_of_In in Hr. by apply filter_In in Hr as [_ ?]. }
  unfold safe_treemap.
  destruct (carries "market_cap" records) eqn:Hc.
  - rewrite (getnum_carried _ _ Hc), bind_Ok, treemap_frame.
    fold kept. fold df_filtered. unfold df_filtered at 1 3.
    rewrite (df_empty_rows _ _ _ Hc). split.
    + intros ->. eauto.
    + intros Hne. destruct kept as [|r kept']; [done|].
      unfold px.
      by destruct (chart_fails w (Treemap df_filtered selected_category)).
  - rewrite (getnum_missing _ _ Hc). split; [eauto|].
    intros Hne. exfalso. apply Hne. apply filter_nil_of_Forall.
    eapply Forall_impl; [by apply carries_false_lookup|].
    intros r Hr. unfold mc_positive. simpl in Hr. by rewrite Hr.
Qed.

Lemma safe_treemap_positive_only_witness :
  (List.filter mc_positive change_only = [] /\
   exists m, safe_treemap quiet_world (pd_DataFrame change_only) "DeFi"
             = ([StWarning m], Ok None)) /\
  (List.filter mc_positive scatter_example <> [] /\
   exists d, safe_treemap quiet_world (pd_DataFrame scatter_example) "DeFi"
             = ([], Ok (Some (Treemap d "DeFi"))) /\
             length (rows d) = 1%nat).
Proof.
  split; (split; [by vm_compute|]).
  - apply (safe_treemap_positive_only quiet_world change_only "DeFi").
    reflexivity.
  - eexists. split; [|shelve].
    apply (safe_treemap_positive_only quiet_world scatter_example "DeFi").
    discriminate.
    Unshelve. reflexivity.
Defined.

(** C6: the scatter plot is built from exactly the records whose market
    cap and volume are both present and strictly positive, in their
    order; when none qualifies no chart is drawn. *)
Theorem scatter_positive_only (w : World)
    (records : list (gmap string cell)) :
  let kept := List.filter both_positive records in
  let df_filtered := mkDataFrame (columns (pd_DataFrame records)) kept in
  (forall r, In r kept <->
     In r records /\
     exists mc vol,
       r !! "market_cap" = Some (Some mc) /\
       r !! "total_volume" = Some (Some vol) /\
       (0 < mc)%Q /\ (0 < vol)%Q) /\
  (kept = [] ->
   exists m, scatter_block w (pd_DataFrame records) = ([StWarning m], Ok tt)) /\
  (kept <> [] ->
   scatter_block w (pd_DataFrame records)
   = match chart_fails w (Scatter df_filtered) with
     | None => ([StPlotlyChart (Scatter df_filtered)], Ok tt)
     | Some _ =>
         ([StWarning (Msg "Could not create volume vs market cap chart.")],
          Ok tt)
     end).
Proof.
  intros kept df_filtered. split.
  { intros r. unfold kept. rewrite filter_In, both_positive_spec. tauto. }
  assert (Hmiss : forall c,
            (c = "market_cap" \/ c = "total_volume") ->
            carries c records = false -> kept = []).
  { intros c Hc Hmiss. apply filter_nil_of_Forall.
    eapply Forall_impl; [by apply carries_false_lookup|].
    intros r Hr. simpl in Hr. unfold both_positive.
    destruct Hc as [-> | ->]; rewrite Hr; simpl;
      [done | by destruct (mjoin (r !! "market_cap"))]. }
  unfold scatter_block.
  destruct (carries "market_cap" records) eqn:Hmc;
    [destruct (carries "total_volume" records) eqn:Hvol|].
  - rewrite (scatter_frame _ Hmc Hvol), bind_Ok.
    fold kept. rewrite (df_empty_rows _ _ _ Hmc). fold df_filtered. split.
    + intros ->. eauto.
    + intros Hne. destruct kept as [|r kept']; [done|].
      unfold px. simpl.
      by destruct (chart_fails w (Scatter df_filtered)).
  - unfold scatter_filter.
    rewrite (getnum_carried _ _ Hmc), (getnum_missing _ _ Hvol).
    split; [eauto|]. intros Hne. destruct Hne. apply (Hmiss "total_volume"); auto.
  - unfold scatter_filter. rewrite (getnum_missing _ _ Hmc).
    split; [eauto|]. intros Hne. destruct Hne. apply (Hmiss "market_cap"); auto.
Qed.

Lemma scatter_positive_only_witness :
  List.filter both_positive scatter_example <> [] /\
  exists d, scatter_block quiet_world (pd_DataFrame scatter_example)
            = ([StPlotlyChart (Scatter d)], Ok tt) /\
            length (rows d) = 1%nat.
Proof.
  split; [by vm_compute|].
  eexists. split; [|shelve].
  apply (scatter_positive_only quiet_world scatter_example). discriminate.
  Unshelve. reflexivity.
Defined.

(** The scatter example plots the record (100, 50) and nothing else. *)
Example scatter_example_one_point :
  List.filter both_positive scatter_example
  = [ {[ "market_cap" := Some 100%Q; "total_volume" := Some 50%Q ]} ].
Proof. reflexivity. Qed.

(** ** Fault isolation of the charts *)

Lemma treemap_block_isolated (w : World) (df : DataFrame cell)
    (selected_category : string) :
  isolated w is_treemap (treemap_block w df selected_category).
Proof.
  unfold isolated, treemap_block, safe_treemap, px.
  destruct (getnum df "market_cap") as [mc|e]; [rewrite bind_Ok|].
  - destruct (df_empty _); [split; eauto|].
    destruct (chart_fails w _) as [e|] eqn:Hfig; simpl;
      (split; [reflexivity|]); eexists; (split; [reflexivity|]); eauto 10.
  - rewrite bind_Raise. split; eauto.
Qed.

Lemma histogram_block_isolated (w : World) (df : DataFrame cell) :
  isolated w is_histogram (histogram_block w df).
Proof.
  unfold isolated, histogram_block, px.
  destruct (getnum df "price_change_percentage_24h") as [pc|e];
    [rewrite bind_Ok|rewrite bind_Raise; split; eauto].
  destruct (chart_fails w _) as [e|] eqn:Hfig; simpl;
    (split; [reflexivity|]); eexists; (split; [reflexivity|]); eauto 10.
Qed.

Lemma scatter_block_isolated (w : World) (df : DataFrame cell) :
  isolated w is_scatter (scatter_block w df).
Proof.
  unfold isolated, scatter_block, px.
  destruct (scatter_filter df) as [df_filtered|e];
    [rewrite bind_Ok|rewrite bind_Raise; split; eauto].
  destruct (df_empty df_filtered); simpl; [split; eauto|].
  destruct (chart_fails w _) as [e|] eqn:Hfig; simpl;
    (split; [reflexivity|]); eexists; (split; [reflexivity|]); eauto 10.
Qed.

Lemma isolated_run {B} (w : World) kind (block : ui unit) (k : unit -> ui B) :
  isolated w kind block ->
  bind block k = ((shown block ++ shown (k tt))%list, outcome (k tt)).
Proof.
  intros [Hout (ev & Hshown & _)]. apply bind_shown.
  destruct block as [log r]. simpl in *. by subst.
Qed.

(** C9: each of the three chart blocks ends normally whatever happens
    inside it, showing either its chart or one warning; the page shows
    the three outputs one after the other; and what a block shows does
    not depend on how plotly fares with the charts of the other two. *)
Theorem charts_fault_isolated (w : World) (df : DataFrame cell)
    (selected_category : string) :
  is_Ok (outcome (safe_treemap w df selected_category)) = true /\
  isolated w is_treemap (treemap_block w df selected_category) /\
  isolated w is_histogram (histogram_block w df) /\
  isolated w is_scatter (scatter_block w df) /\
  charts w df selected_category
  = ((shown (treemap_block w df selected_category) ++
      if df_empty df then []
      else StSubheader "Performance Analysis" ::
           shown (histogram_block w df) ++ shown (scatter_block w df))%list,
     Ok tt) /\
  (forall w', same_charts is_treemap w w' ->
     treemap_block w' df selected_category
     = treemap_block w df selected_category) /\
  (forall w', same_charts is_histogram w w' ->
     histogram_block w' df = histogram_block w df) /\
  (forall w', same_charts is_scatter w w' ->
     scatter_block w' df = scatter_block w df).
Proof.
  split; [by apply try_any_total|].
  split; [apply treemap_block_isolated|].
  split; [apply histogram_block_isolated|].
  split; [apply scatter_block_isolated|].
  split; [|split; [|split]].
  - unfold charts.
    rewrite (isolated_run w is_treemap) by apply treemap_block_isolated.
    destruct (df_empty df); cbn [negb]; [reflexivity|].
    rewrite bind_say.
    rewrite (isolated_run w is_histogram) by apply histogram_block_isolated.
    destruct (scatter_block_isolated w df) as [Hout _].
    unfold shown, outcome in *. simpl. by rewrite Hout.
  - intros w' Hsame. unfold treemap_block, safe_treemap, px.
    destruct (getnum df "market_cap") as [mc|e]; [|reflexivity].
    rewrite !bind_Ok. destruct (df_empty _); [reflexivity|].
    by rewrite (Hsame (Treemap _ _)).
  - intros w' Hsame. unfold histogram_block, px.
    destruct (getnum df "price_change_percentage_24h") as [pc|e];
      [|reflexivity].
    rewrite !bind_Ok. by rewrite (Hsame (Histogram _ _)).
  - intros w' Hsame. unfold scatter_block, px.
    destruct (scatter_filter df) as [df_filtered|e]; [|reflexivity].
    rewrite !bind_Ok. destruct (df_empty _); [reflexivity|].
    simpl. by rewrite (Hsame (Scatter _)).
Qed.

Lemma charts_fault_isolated_witness :
  same_charts is_histogram quiet_world treemapless_world /\
  same_charts is_scatter quiet_world treemapless_world /\
  histogram_block treemapless_world (pd_DataFrame scatter_example)
  = histogram_block quiet_world (pd_DataFrame scatter_example) /\
  scatter_block treemapless_world (pd_DataFrame scatter_example)
  = scatter_block quiet_world (pd_DataFrame scatter_example).
Proof.
  assert (Hh : same_charts is_histogram quiet_world treemapless_world)
    by (by intros [| |]).
  assert (Hs : same_charts is_scatter quiet_world treemapless_world)
    by (by intros [| |]).
  split; [exact Hh|]. split; [exact Hs|].
  pose proof (charts_fault_isolated quiet_world
                (pd_DataFrame scatter_example) "DeFi") as H.
  destruct H as (_ & _ & _ & _ & _ & _ & Hhist & Hscat).
  split; [exact (Hhist _ Hh) | exact (Hscat _ Hs)].
Defined.

(** With plotly failing on every chart, each block shows its own warning
    and the page still ends normally. *)
Example every_chart_fails :
  charts chartless_world (pd_DataFrame change_among_nulls) "DeFi"
  = ([ StWarning (Msg
         "No valid market cap data available for treemap visualization.");
       StSubheader "Performance Analysis";
       StWarning (Msg "Could not create price change distribution chart.");
       StWarning (Msg
         "Insufficient data for volume vs market cap visualization.") ],
     Ok tt).
Proof. reflexivity. Qed.

(** With plotly failing on treemaps only, the page shows the treemap's
    warning and then the other two charts. *)
Example treemap_failure_is_local :
  exists d,
    charts treemapless_world (pd_DataFrame scatter_example) "DeFi"
    = ([ StWarning (MsgExn "Could not create treemap visualization: "
                           (ChartError "plotly failed"));
         StSubheader "Performance Analysis";
         StWarning (Msg "Could not create price change distribution chart.");
         StPlotlyChart (Scatter d) ], Ok tt).
Proof. eexists. reflexivity. Qed.

(** ** Failed requests *)

Lemma fetch_categories_failed (w : World) :
  http_failed (http_categories w) = true ->
  fetch_categories w
  = ([StError (MsgExn "Error fetching categories: "
                      (http_exn (http_categories w)))], Ok None).
Proof.
  unfold fetch_categories, http_failed, requests_get, raise_for_status.
  destruct (http_categories w) as [msg|status payload|status e];
    [reflexivity|..]; intros H; rewrite bind_Ok; simpl; by rewrite H.
Qed.

Lemma fetch_category_data_failed (w : World) (category_id : option string) :
  http_failed (http_markets w category_id) = true ->
  fetch_category_data w category_id
  = ([StError (MsgExn "Error fetching category data: "
                      (http_exn (http_markets w category_id)))], Ok None).
Proof.
  unfold fetch_category_data, http_failed, requests_get, raise_for_status.
  destruct (http_markets w category_id) as [msg|status payload|status e];
    [reflexivity|..]; intros H; rewrite bind_Ok; simpl; by rewrite H.
Qed.

Lemma fetch_category_data_ok (w : World) (category_id : option string)
    (status : Z) (records : list (gmap string cell)) :
  http_markets w category_id = Response status records ->
  http_failed (Response status records) = false ->
  fetch_category_data w category_id = ([], Ok (Some records)).
Proof.
  unfold fetch_category_data, http_failed, requests_get, raise_for_status.
  intros -> H. rewrite bind_Ok. simpl. by rewrite H.
Qed.

Lemma fetch_categories_ok (w : World) (status : Z)
    (cats : list (gmap string string)) :
  http_categories w = Response status cats ->
  http_failed (Response status cats) = false ->
  fetch_categories w = ([], Ok (Some cats)).
Proof.
  unfold fetch_categories, http_failed, requests_get, raise_for_status.
  intros -> H. rewrite bind_Ok. simpl. by rewrite H.
Qed.

(** C8: when a request fails in transport or with an error status, the
    fetcher shows one error message and returns None instead of raising;
    after a failed catalog request main shows its own error and ends
    there; after a failed market request nothing more is rendered. *)
Theorem fetch_failure_halts (w : World) :
  (http_failed (http_categories w) = true ->
   fetch_categories w
   = ([StError (MsgExn "Error fetching categories: "
                       (http_exn (http_categories w)))], Ok None) /\
   main w
   = ([StTitle "🔍 DTF Scope";
       StError (MsgExn "Error fetching categories: "
                       (http_exn (http_categories w)));
       StError (Msg "Failed to fetch categories. Please try again later.")],
      Ok tt)) /\
  (forall (selected_category : string) (selected_id : option string),
     http_failed (http_markets w selected_id) = true ->
     fetch_category_data w selected_id
     = ([StError (MsgExn "Error fetching category data: "
                         (http_exn (http_markets w selected_id)))], Ok None) /\
     render_category w selected_category selected_id
     = ([StError (MsgExn "Error fetching category data: "
                         (http_exn (http_markets w selected_id)))], Ok tt)).
Proof.
  split.
  - intros H. split; [by apply fetch_categories_failed|].
    unfold main. rewrite bind_say.
    by rewrite (fetch_categories_failed w H).
  - intros selected_category selected_id H.
    split; [by apply fetch_category_data_failed|].
    unfold render_category.
    by rewrite (fetch_category_data_failed w selected_id H).
Qed.

Lemma fetch_failure_halts_witness :
  http_failed (http_categories offline_world) = true /\
  http_failed (http_markets offline_world (Some "defi")) = true /\
  main offline_world
  = ([StTitle "🔍 DTF Scope";
      StError (MsgExn "Error fetching categories: "
                      (ConnectionError "timed out"));
      StError (Msg "Failed to fetch categories. Please try again later.")],
     Ok tt) /\
  render_category offline_world "DeFi" (Some "defi")
  = ([StError (MsgExn "Error fetching category data: " (HTTPError 503))],
     Ok tt).
Proof.
  split; [reflexivity|]. split; [reflexivity|]. split.
  - apply (proj1 (fetch_failure_halts offline_world)). reflexivity.
  - apply (proj2 (fetch_failure_halts offline_world) "DeFi" (Some "defi")).
    reflexivity.
Defined.

(** ** A category without assets *)

(** C4, as it holds: when the market request succeeds with an empty list
    of records, the part of the page that renders the category shows
    nothing at all (no tile, no chart, no warning) and ends normally. *)
Theorem empty_category_renders_nothing (w : World)
    (selected_category : string) (selected_id : option string) (status : Z)
    (Hresp : http_markets w selected_id = Response status [])
    (Hok : http_failed (http_markets w selected_id) = false) :
  render_category w selected_category selected_id = ([], Ok tt).
Proof.
  unfold render_category. rewrite Hresp in Hok.
  by rewrite (fetch_category_data_ok w selected_id status [] Hresp Hok).
Qed.

Lemma empty_category_renders_nothing_witness :
  render_category (empty_market_world "") "DeFi" (Some "defi") = ([], Ok tt).
Proof.
  apply (empty_category_renders_nothing (empty_market_world "") "DeFi"
           (Some "defi") 200); reflexivity.
Defined.

(** C4, as stated, fails: with DeFi selected and an empty list of assets
    returned for it, the page ends after the dropdown; it shows no metric
    tile (not four) and no warning in place of a chart (not three). *)
Lemma empty_category_page :
  http_markets (empty_market_world "") (Some "defi") = Response 200 [] /\
  main (empty_market_world "")
  = ([StTitle "🔍 DTF Scope";
      StHeader "Category Selection";
      StTextInput "Search Categories";
      StSelectbox "Select Category" [Some "DeFi"; Some "NFT Index"]],
     Ok tt) /\
  length (List.filter is_metric (shown (main (empty_market_world ""))))
    <> 4%nat /\
  length (List.filter is_warning (shown (main (empty_market_world ""))))
    <> 3%nat.
Proof. by vm_compute. Qed.

(** ** The category search *)

Lemma re_parse_plain (pat : string) :
  re_plain pat = true -> re_parse pat = Some (re_literal pat).
Proof.
  unfold re_plain, re_literal.
  induction pat as [|a pat IH]; [reflexivity|].
  simpl. rewrite andb_true_iff, negb_true_iff. intros [Ha Hpat].
  rewrite Ha, (IH Hpat).
  unfold re_special in Ha. simpl in Ha.
  apply orb_false_iff in Ha as [-> _]. reflexivity.
Qed.

Lemma match_here_literal (t s : string) :
  match_here (re_literal t) s = true <-> exists post, s = t ++ post.
Proof.
  unfold re_literal. revert s.
  induction t as [|a t IH]; intros s; simpl.
  - split; eauto.
  - destruct s as [|b s].
    + split; [done|]. by intros [post ?].
    + rewrite andb_true_iff, IH, Ascii.eqb_eq. split.
      * intros [-> [post ->]]. eauto.
      * intros [post [= -> ->]]. eauto.
Qed.

Lemma re_search_literal (t s : string) :
  re_search (re_literal t) s = true <-> is_substring t s.
Proof.
  unfold is_substring.
  induction s as [|b s IH]; simpl;
    rewrite orb_true_iff, match_here_literal.
  - split.
    + intros [[post H]|?]; [|done]. by exists "", post.
    + intros (pre & post & H). left.
      destruct pre; [by exists post | discriminate].
  - rewrite IH. split.
    + intros [[post H]|(pre & post & H)].
      * by exists "", post.
      * exists (String b pre), post. simpl. by rewrite H.
    + intros (pre & post & H). destruct pre as [|c pre].
      * left. by exists post.
      * right. injection H as -> ->. eauto.
Qed.

Lemma select_rows_map {A} (p : A -> bool) (l : list A) :
  select_rows l (map p l) = List.filter p l.
Proof.
  induction l as [|x l IH]; [reflexivity|].
  simpl. destruct (p x); by rewrite IH.
Qed.

Lemma filter_all {A} (p : A -> bool) (l : list A) :
  forallb p l = true -> List.filter p l = l.
Proof.
  induction l as [|x l IH]; [reflexivity|].
  simpl. intros [-> H]%andb_true_iff. by rewrite (IH H).
Qed.

Lemma carries_named (cats : list (gmap string string)) :
  cats <> [] -> forallb named cats = true -> carries "name" cats = true.
Proof.
  destruct cats as [|c cats]; [done|].
  simpl. intros _ [H _]%andb_true_iff. unfold named in H. by rewrite H.
Qed.

Lemma name_mask (found : string -> bool) (cats : list (gmap string string)) :
  forallb named cats = true ->
  bool_mask (map (fmap found)
               (str_lower (map (fun r : gmap string string => r !! "name") cats)))
  = Ok (map (name_matches found) cats).
Proof.
  unfold bool_mask, str_lower. intros H.
  assert (Hall : forall l : list (gmap string string),
            forallb named l = true ->
            forallb (fun c : option bool =>
                       match c with Some _ => true | None => false end)
              (map (fmap found)
                 (map (fmap lower)
                    (map (fun r : gmap string string => r !! "name") l)))
            = true /\
            present (map (fmap found)
                       (map (fmap lower)
                          (map (fun r : gmap string string => r !! "name") l)))
            = map (name_matches found) l).
  { induction l as [|r l IH]; [done|].
    simpl. intros [Hr Hl]%andb_true_iff. destruct (IH Hl) as [IH1 IH2].
    unfold named in Hr. apply bool_decide_eq_true in Hr as [n Hn].
    unfold name_matches at 1. rewrite Hn. simpl. by rewrite IH1, IH2. }
  destruct (Hall cats H) as [-> ->]. reflexivity.
Qed.

(** What the search keeps for a pattern in the interpreted fragment. *)
Lemma filter_categories_parsed (w : World) (cats : list (gmap string string))
    (pat : string) (items : list re_item) :
  cats <> [] -> forallb named cats = true ->
  re_parse pat = Some items ->
  filter_categories w (pd_DataFrame cats) pat
  = Ok (mkDataFrame (columns (pd_DataFrame cats))
                    (List.filter (name_matches (re_search items)) cats)).
Proof.
  intros Hne Hnamed Hparse.
  unfold filter_categories, getitem.
  rewrite bool_decide_eq_true_2
    by (apply elem_of_columns; by apply carries_named).
  unfold str_contains, re_compile. rewrite Hparse.
  change (rows (pd_DataFrame cats)) with cats.
  rewrite (name_mask _ _ Hnamed).
  unfold df_mask. change (rows (pd_DataFrame cats)) with cats.
  by rewrite select_rows_map.
Qed.

(** Where the search is a substring search: for ASCII text, a search term
    whose lowered form contains no regular-expression metacharacter, and a
    catalog whose records all have a name, the search keeps, in order,
    exactly the categories whose lowered name contains the lowered term as
    a substring. *)
Theorem category_search_substring (w : World)
    (cats : list (gmap string string)) (text : string)
    (Hne : cats <> [])
    (Hnamed : forallb named cats = true)
    (Hascii : is_ascii text = true)
    (Hnames : ascii_names cats = true)
    (Hplain : re_plain (lower text) = true) :
  exists filtered keep,
    filter_categories w (pd_DataFrame cats) (lower text) = Ok filtered /\
    rows filtered = List.filter keep cats /\
    (forall r, keep r = true <->
       exists n, r !! "name" = Some n /\
                 is_substring (lower text) (lower n)) /\
    (forall r, In r (rows filtered) <->
       In r cats /\
       exists n, r !! "name" = Some n /\
                 is_substring (lower text) (lower n)).
Proof.
  pose (keep := name_matches (re_search (re_literal (lower text)))).
  assert (Hkeep : forall r, keep r = true <->
            exists n, r !! "name" = Some n /\
                      is_substring (lower text) (lower n)).
  { intros r. unfold keep, name_matches.
    destruct (r !! "name") as [n|].
    - rewrite re_search_literal. split; [eauto|]. by intros (? & [= <-] & ?).
    - split; [done|]. by intros (? & ? & _). }
  eexists _, keep. split.
  - apply (filter_categories_parsed w cats _ _ Hne Hnamed
             (re_parse_plain _ Hplain)).
  - split; [reflexivity|]. split; [exact Hkeep|].
    intros r. simpl. fold keep. by rewrite filter_In, Hkeep.
Qed.

Lemma category_search_substring_witness :
  exists filtered keep,
    filter_categories quiet_world (pd_DataFrame name_catalog) (lower "nft")
    = Ok filtered /\
    rows filtered = List.filter keep name_catalog /\
    (forall r, keep r = true <->
       exists n, r !! "name" = Some n /\
                 is_substring (lower "nft") (lower n)) /\
    (forall r, In r (rows filtered) <->
       In r name_catalog /\
       exists n, r !! "name" = Some n /\
                 is_substring (lower "nft") (lower n)).
Proof.
  apply (category_search_substring quiet_world name_catalog "nft").
  - discriminate.
  - reflexivity.
  - reflexivity.
  - reflexivity.
  - reflexivity.
Defined.

(** Searching nft in the catalog of DeFi and NFT Index offers exactly
    NFT Index. *)
Example search_nft :
  exists filtered,
    filter_categories quiet_world (pd_DataFrame name_catalog) (lower "NFT")
    = Ok filtered /\
    getitem filtered "name" = Ok [Some "NFT Index"].
Proof. eexists. split; reflexivity. Qed.

(** C5, at the search term d.f: the search is not the substring match
    the claim describes. The page hands the lowered term to
    Series.str.contains with its default regex=True, so the term is
    compiled as a regular expression, and in the catalog of DeFi and
    NFT Index the search keeps DeFi although d.f does not occur in defi. *)
Lemma search_dot_is_wildcard :
  exists filtered,
    filter_categories quiet_world (pd_DataFrame name_catalog) (lower "d.f")
    = Ok filtered /\
    rows filtered = [ {[ "name" := "DeFi" ]} ] /\
    ~ is_substring (lower "d.f") (lower "DeFi").
Proof.
  eexists. split; [reflexivity|]. split; [reflexivity|].
  rewrite <- re_search_literal. by vm_compute.
Qed.

(** On the page: with d.f in the search box the dropdown offers DeFi. *)
Example search_dot_page :
  shown (main (empty_market_world "d.f"))
  = [StTitle "🔍 DTF Scope";
     StHeader "Category Selection";
     StTextInput "Search Categories";
     StSelectbox "Select Category" [Some "DeFi"]].
Proof. by vm_compute. Qed.

(** ** The blank search and the default selection *)

Lemma filter_categories_blank (w : World) (cats : list (gmap string string)) :
  cats <> [] -> forallb named cats = true ->
  filter_categories w (pd_DataFrame cats) "" = Ok (pd_DataFrame cats).
Proof.
  intros Hne Hnamed.
  rewrite (filter_categories_parsed w cats "" [] Hne Hnamed eq_refl).
  rewrite filter_all; [reflexivity|].
  clear Hne. induction cats as [|r cats IH]; [reflexivity|].
  simpl in *. apply andb_true_iff in Hnamed as [Hr Hcats].
  rewrite (IH Hcats), andb_true_r.
  unfold named in Hr. apply bool_decide_eq_true in Hr as [n Hn].
  unfold name_matches. rewrite Hn. by destruct (lower n).
Qed.

(** First match wins: the id is read from the first record whose name is
    the selection. *)
Lemma resolve_id_first (cats : list (gmap string string))
    (selection : string) (r : gmap string string) :
  carries "name" cats = true ->
  carries "category_id" cats = true ->
  first_named selection cats = Some r ->
  resolve_id (pd_DataFrame cats) (Some selection)
  = Ok (r !! "category_id").
Proof.
  intros Hname Hid Hfirst. unfold resolve_id, getitem.
  rewrite bool_decide_eq_true_2 by (by apply elem_of_columns).
  unfold df_mask. simpl.
  rewrite bool_decide_eq_true_2
    by (by apply (elem_of_columns "category_id" cats)).
  clear Hname Hid. unfold series_eq.
  induction cats as [|c cats IH]; [discriminate|].
  simpl in *. destruct (c !! "name") as [n|] eqn:Hn; simpl.
  - destruct (String.eqb n selection) eqn:Heq.
    + by injection Hfirst as ->.
    + by apply IH.
  - by apply IH.
Qed.

(** C10: with the search box blank and the dropdown untouched, the search
    keeps the whole catalog, the dropdown offers every name, the first
    entry is the selection, its category_id is the id that is fetched, and
    the page goes on to render that category. *)
Theorem blank_search_selects_first (w : World) (status : Z)
    (c0 : gmap string string) (rest : list (gmap string string))
    (name0 id0 : string)
    (Hresp : http_categories w = Response status (c0 :: rest))
    (Hok : http_failed (http_categories w) = false)
    (Hblank : search_text w = "")
    (Hpick : picked w = None)
    (Hnamed : forallb named (c0 :: rest) = true)
    (Hname0 : c0 !! "name" = Some name0)
    (Hid0 : c0 !! "category_id" = Some id0) :
  let cats := c0 :: rest in
  filter_categories w (pd_DataFrame cats) (lower (search_text w))
  = Ok (pd_DataFrame cats) /\
  st_selectbox w "Select Category"
    (map (fun r : gmap string string => r !! "name") cats) 0
  = ([StSelectbox "Select Category"
        (map (fun r : gmap string string => r !! "name") cats)],
     Ok (Some name0)) /\
  first_named name0 cats = Some c0 /\
  resolve_id (pd_DataFrame cats) (Some name0) = Ok (Some id0) /\
  main w
  = (StTitle "🔍 DTF Scope" ::
     StHeader "Category Selection" ::
     StTextInput "Search Categories" ::
     StSelectbox "Select Category"
       (map (fun r : gmap string string => r !! "name") cats) ::
     shown (render_category w name0 (Some id0)),
     outcome (render_category w name0 (Some id0))).
Proof.
  intros cats.
  assert (Hne : cats <> []) by done.
  assert (Hcname : carries "name" cats = true) by (by apply carries_named).
  assert (Hcid : carries "category_id" cats = true).
  { unfold cats, carries. simpl. by rewrite Hid0. }
  assert (Hfilter : filter_categories w (pd_DataFrame cats)
                      (lower (search_text w)) = Ok (pd_DataFrame cats)).
  { rewrite Hblank. by apply filter_categories_blank. }
  assert (Hbox : st_selectbox w "Select Category"
            (map (fun r : gmap string string => r !! "name") cats) 0
          = ([StSelectbox "Select Category"
                (map (fun r : gmap string string => r !! "name") cats)],
             Ok (Some name0))).
  { unfold st_selectbox. rewrite Hpick, bind_say. simpl. by rewrite Hname0. }
  assert (Hfirst : first_named name0 cats = Some c0).
  { unfold first_named, cats. simpl. by rewrite Hname0, String.eqb_refl. }
  assert (Hres : resolve_id (pd_DataFrame cats) (Some name0) = Ok (Some id0)).
  { rewrite (resolve_id_first cats name0 c0 Hcname Hcid Hfirst).
    by rewrite Hid0. }
  do 4 (split; [assumption|]).
  unfold main. rewrite bind_say. rewrite Hresp in Hok.
  rewrite (bind_shown _ _ _ _ (fetch_categories_ok w status cats Hresp Hok)).
  unfold cats at 1 2. cbv beta iota. fold cats.
  rewrite !bind_say, Hfilter, bind_Ok.
  assert (Hempty : df_empty (pd_DataFrame cats) = false).
  { unfold df_empty. by rewrite (columns_nonempty _ _ Hcname). }
  rewrite Hempty. cbn [negb].
  assert (Hopts : getitem (pd_DataFrame cats) "name"
            = Ok (map (fun r : gmap string string => r !! "name") cats)).
  { unfold getitem.
    by rewrite bool_decide_eq_true_2 by (by apply elem_of_columns). }
  rewrite Hopts, bind_Ok.
  rewrite (bind_shown _ _ _ _ Hbox), Hres, bind_Ok.
  reflexivity.
Qed.

Lemma blank_search_selects_first_witness :
  main (empty_market_world "")
  = (StTitle "🔍 DTF Scope" ::
     StHeader "Category Selection" ::
     StTextInput "Search Categories" ::
     StSelectbox "Select Category" [Some "DeFi"; Some "NFT Index"] ::
     shown (render_category (empty_market_world "") "DeFi" (Some "defi")),
     outcome (render_category (empty_market_world "") "DeFi" (Some "defi"))).
Proof.
  apply (blank_search_selects_first (empty_market_world "") 200
           (category "defi" "DeFi") [category "nft-index" "NFT Index"]
           "DeFi" "defi"); reflexivity.
Defined.

(** * Further properties of the page *)

(** ** The fetchers *)

Lemma fetch_categories_answers (w : World) :
  answers "Error fetching categories: " (http_categories w)
    (fetch_categories w).
Proof.
  split; [apply fetch_categories_failed|]. split.
  - intros status payload Hresp Hok. rewrite Hresp in Hok.
    by apply (fetch_categories_ok w status).
  - intros status e Hresp Hok.
    unfold fetch_categories, requests_get, raise_for_status, response_json.
    rewrite Hresp in *. rewrite bind_Ok. simpl in *. rewrite Hok.
    by destruct e.
Qed.

Lemma fetch_category_data_answers (w : World) (category_id : option string) :
  answers "Error fetching category data: " (http_markets w category_id)
    (fetch_category_data w category_id).
Proof.
  split; [apply fetch_category_data_failed|]. split.
  - intros status payload Hresp Hok. rewrite Hresp in Hok.
    by apply (fetch_category_data_ok w category_id status).
  - intros status e Hresp Hok.
    unfold fetch_category_data, requests_get, raise_for_status, response_json.
    rewrite Hresp in *. rewrite bind_Ok. simpl in *. rewrite Hok.
    by destruct e.
Qed.

(** For every answer of the HTTP layer each fetcher does one of three
    things. When the request failed in transport or with a 4xx/5xx status
    it shows one error message and returns None. When the body parses as
    JSON it returns the payload and shows nothing. When the status is fine
    but response.json() raises, it shows the error and returns None if the
    exception is a RequestException, and otherwise the exception leaves
    the fetcher. A fetcher raises in no other case. *)
Theorem fetchers_total (w : World) (category_id : option string) :
  answers "Error fetching categories: " (http_categories w)
    (fetch_categories w) /\
  answers "Error fetching category data: " (http_markets w category_id)
    (fetch_category_data w category_id) /\
  (forall e,
     outcome (fetch_categories w) = Raise e ->
     exists status,
       http_categories w = NotJson status e /\
       http_failed (http_categories w) = false /\
       is_RequestException e = false) /\
  (forall e,
     outcome (fetch_category_data w category_id) = Raise e ->
     exists status,
       http_markets w category_id = NotJson status e /\
       http_failed (http_markets w category_id) = false /\
       is_RequestException e = false).
Proof.
  split; [apply fetch_categories_answers|].
  split; [apply fetch_category_data_answers|].
  split.
  - intros e.
    destruct (fetch_categories_answers w) as (Hf & Hr & Hn).
    destruct (http_failed (http_categories w)) eqn:Hfail;
      [by rewrite Hf|].
    destruct (http_categories w) as [msg|status payload|status e'];
      [discriminate| by rewrite (Hr status payload) |].
    rewrite (Hn status e') by done.
    destruct (is_RequestException e') eqn:He; [done|].
    intros [= <-]. eauto.
  - intros e.
    destruct (fetch_category_data_answers w category_id) as (Hf & Hr & Hn).
    destruct (http_failed (http_markets w category_id)) eqn:Hfail;
      [by rewrite Hf|].
    destruct (http_markets w category_id) as [msg|status payload|status e'];
      [discriminate| by rewrite (Hr status payload) |].
    rewrite (Hn status e') by done.
    destruct (is_RequestException e') eqn:He; [done|].
    intros [= <-]. eauto.
Qed.

Lemma fetchers_total_witness :
  fetch_categories (empty_market_world "")
  = ([], Ok (Some [category "defi" "DeFi"; category "nft-index" "NFT Index"]))
  /\
  fetch_categories offline_world
  = ([StError (MsgExn "Error fetching categories: "
                      (ConnectionError "timed out"))], Ok None) /\
  fetch_categories garbled_world
  = ([StError (MsgExn "Error fetching categories: "
                      (JSONDecodeError "Expecting value"))], Ok None) /\
  fetch_category_data garbled_world (Some "defi")
  = ([], Raise (ValueError "Expecting value")).
Proof.
  split; [|split; [|split]].
  - apply (proj1 (proj2 (proj1 (fetchers_total (empty_market_world "") None)))
             200); reflexivity.
  - apply (proj1 (proj1 (fetchers_total offline_world None))). reflexivity.
  - apply (proj2 (proj2 (proj1 (fetchers_total garbled_world None)))
             200 (JSONDecodeError "Expecting value")); reflexivity.
  - apply (proj2 (proj2 (proj1 (proj2
             (fetchers_total garbled_world (Some "defi")))))
             200 (ValueError "Expecting value")); reflexivity.
Defined.

(** ** The selection stage of main *)

Lemma main_after_fetch (w : World) (status : Z)
    (c0 : gmap string string) (rest : list (gmap string string)) :
  http_categories w = Response status (c0 :: rest) ->
  http_failed (http_categories w) = false ->
  main w
  = (StTitle "🔍 DTF Scope" ::
     StHeader "Category Selection" ::
     StTextInput "Search Categories" ::
     shown (let* filtered_categories :=
              lift (filter_categories w (pd_DataFrame (c0 :: rest))
                      (lower (search_text w))) in
            if negb (df_empty filtered_categories) then
              let* options := lift (getitem filtered_categories "name") in
              let* selected_category :=
                st_selectbox w "Select Category" options 0 in
              let* selected_id :=
                lift (resolve_id filtered_categories selected_category) in
              render_category w (show_cell selected_category) selected_id
            else
              say (StWarning
                     (Msg "No categories found matching your search."))),
     outcome (let* filtered_categories :=
                lift (filter_categories w (pd_DataFrame (c0 :: rest))
                        (lower (search_text w))) in
              if negb (df_empty filtered_categories) then
                let* options := lift (getitem filtered_categories "name") in
                let* selected_category :=
                  st_selectbox w "Select Category" options 0 in
                let* selected_id :=
                  lift (resolve_id filtered_categories selected_category) in
                render_category w (show_cell selected_category) selected_id
              else
                say (StWarning
                       (Msg "No categories found matching your search.")))).
Proof.
  intros Hresp Hok. unfold main. rewrite bind_say. rewrite Hresp in Hok.
  rewrite (bind_shown _ _ _ _
             (fetch_categories_ok w status (c0 :: rest) Hresp Hok)).
  cbv beta iota. rewrite !bind_say. reflexivity.
Qed.

Lemma st_selectbox_shows (w : World) (label : string)
    (options : list (option string)) (index : nat) :
  exists selected,
    st_selectbox w label options index
    = ([StSelectbox label options], Ok selected).
Proof. unfold st_selectbox. rewrite bind_say. eauto. Qed.

(** A catalog request that succeeds with an empty list is handled like a
    failed one: main shows its error message and ends, without a search
    box and without a second request. *)
Theorem empty_catalog_is_failure (w : World) (status : Z)
    (Hresp : http_categories w = Response status [])
    (Hok : http_failed (http_categories w) = false) :
  main w
  = ([StTitle "🔍 DTF Scope";
      StError (Msg "Failed to fetch categories. Please try again later.")],
     Ok tt).
Proof.
  unfold main. rewrite bind_say. rewrite Hresp in Hok.
  by rewrite (bind_shown _ _ _ _ (fetch_categories_ok w status [] Hresp Hok)).
Qed.

Lemma empty_catalog_is_failure_witness :
  main quiet_world
  = ([StTitle "🔍 DTF Scope";
      StError (Msg "Failed to fetch categories. Please try again later.")],
     Ok tt).
Proof.
  apply (empty_catalog_is_failure quiet_world 200); reflexivity.
Defined.

(** For ASCII text: when the search term has no metacharacter and occurs
    in no category name, main shows the warning and ends normally: no
    dropdown, no market request, no tile. *)
Theorem no_match_warns (w : World) (status : Z)
    (c0 : gmap string string) (rest : list (gmap string string))
    (Hresp : http_categories w = Response status (c0 :: rest))
    (Hok : http_failed (http_categories w) = false)
    (Hnamed : forallb named (c0 :: rest) = true)
    (Hascii : is_ascii (search_text w) = true)
    (Hnames : ascii_names (c0 :: rest) = true)
    (Hplain : re_plain (lower (search_text w)) = true)
    (Hnone : forall r n, In r (c0 :: rest) -> r !! "name" = Some n ->
               ~ is_substring (lower (search_text w)) (lower n)) :
  main w
  = ([StTitle "🔍 DTF Scope";
      StHeader "Category Selection";
      StTextInput "Search Categories";
      StWarning (Msg "No categories found matching your search.")],
     Ok tt).
Proof.
  rewrite (main_after_fetch w status c0 rest Hresp Hok).
  rewrite (filter_categories_parsed w (c0 :: rest) _ _ ltac:(done) Hnamed
             (re_parse_plain _ Hplain)), bind_Ok.
  rewrite filter_nil_of_Forall.
  - unfold df_empty. simpl. by rewrite orb_true_r.
  - apply Forall_forall. intros r Hr. apply list_elem_of_In in Hr.
    unfold name_matches. destruct (r !! "name") as [n|] eqn:Hn; [|done].
    apply not_true_is_false. rewrite re_search_literal. by eapply Hnone.
Qed.

Lemma no_match_warns_witness :
  main (empty_market_world "solana")
  = ([StTitle "🔍 DTF Scope";
      StHeader "Category Selection";
      StTextInput "Search Categories";
      StWarning (Msg "No categories found matching your search.")],
     Ok tt).
Proof.
  apply (no_match_warns (empty_market_world "solana") 200
           (category "defi" "DeFi") [category "nft-index" "NFT Index"]);
    try reflexivity.
  intros r n Hr Hn. rewrite <- re_search_literal.
  destruct Hr as [<-|[<-|[]]]; vm_compute in Hn; injection Hn as <-;
    by vm_compute.
Defined.

(** The search is not guarded: when the lowered search text is refused as
    a regular expression, the exception leaves main, after the title, the
    sidebar header and the search box. *)
Theorem bad_pattern_escapes (w : World) (status : Z)
    (c0 : gmap string string) (rest : list (gmap string string)) (e : exn)
    (Hresp : http_categories w = Response status (c0 :: rest))
    (Hok : http_failed (http_categories w) = false)
    (Hname : carries "name" (c0 :: rest) = true)
    (Hparse : re_parse (lower (search_text w)) = None)
    (Hrefused : re_other w (lower (search_text w)) = Raise e) :
  main w
  = ([StTitle "🔍 DTF Scope";
      StHeader "Category Selection";
      StTextInput "Search Categories"],
     Raise e).
Proof.
  rewrite (main_after_fetch w status c0 rest Hresp Hok).
  unfold filter_categories, getitem.
  rewrite bool_decide_eq_true_2 by (by apply elem_of_columns).
  unfold str_contains, re_compile. by rewrite Hparse, Hrefused.
Qed.

Lemma bad_pattern_escapes_witness :
  main (empty_market_world "de(fi")
  = ([StTitle "🔍 DTF Scope";
      StHeader "Category Selection";
      StTextInput "Search Categories"],
     Raise (ReError "unsupported pattern")).
Proof.
  apply (bad_pattern_escapes (empty_market_world "de(fi") 200
           (category "defi" "DeFi") [category "nft-index" "NFT Index"]);
    reflexivity.
Defined.

(** The id lookup is not guarded either: when no record of the catalog
    has a category_id key, a blank search shows the dropdown and then main
    raises KeyError for category_id, before any market request. *)
Theorem missing_category_id_escapes (w : World) (status : Z)
    (c0 : gmap string string) (rest : list (gmap string string))
    (Hresp : http_categories w = Response status (c0 :: rest))
    (Hok : http_failed (http_categories w) = false)
    (Hblank : search_text w = "")
    (Hnamed : forallb named (c0 :: rest) = true)
    (Hnoid : carries "category_id" (c0 :: rest) = false) :
  main w
  = ([StTitle "🔍 DTF Scope";
      StHeader "Category Selection";
      StTextInput "Search Categories";
      StSelectbox "Select Category"
        (map (fun r : gmap string string => r !! "name") (c0 :: rest))],
     Raise (KeyError "category_id")).
Proof.
  assert (Hcname : carries "name" (c0 :: rest) = true)
    by (by apply carries_named).
  rewrite (main_after_fetch w status c0 rest Hresp Hok), Hblank.
  change (lower "") with "".
  rewrite (filter_categories_blank w (c0 :: rest) ltac:(done) Hnamed), bind_Ok.
  assert (Hempty : df_empty (pd_DataFrame (c0 :: rest)) = false).
  { unfold df_empty. by rewrite (columns_nonempty _ _ Hcname). }
  rewrite Hempty. cbn [negb].
  assert (Hopts : getitem (pd_DataFrame (c0 :: rest)) "name"
            = Ok (map (fun r : gmap string string => r !! "name")
                      (c0 :: rest))).
  { unfold getitem.
    by rewrite bool_decide_eq_true_2 by (by apply elem_of_columns). }
  rewrite Hopts, bind_Ok.
  assert (Hres : forall sel,
            resolve_id (pd_DataFrame (c0 :: rest)) sel
            = Raise (KeyError "category_id")).
  { intros sel. unfold resolve_id. rewrite Hopts. unfold getitem, df_mask.
    rewrite bool_decide_eq_false_2; [done|].
    change (columns (mkDataFrame (columns (pd_DataFrame (c0 :: rest))) _))
      with (columns (pd_DataFrame (c0 :: rest))).
    rewrite elem_of_columns. congruence. }
  destruct (st_selectbox_shows w "Select Category"
              (map (fun r : gmap string string => r !! "name") (c0 :: rest)) 0)
    as [sel Hbox].
  by rewrite (bind_shown _ _ _ _ Hbox), Hres.
Qed.

Lemma missing_category_id_escapes_witness :
  main (catalog_world name_catalog "")
  = ([StTitle "🔍 DTF Scope";
      StHeader "Category Selection";
      StTextInput "Search Categories";
      StSelectbox "Select Category"
        (map (fun r : gmap string string => r !! "name") name_catalog)],
     Raise (KeyError "category_id")).
Proof.
  apply (missing_category_id_escapes (catalog_world name_catalog "") 200
           {[ "name" := "DeFi" ]} [ {[ "name" := "NFT Index" ]} ]);
    reflexivity.
Defined.

(** ** More on the metrics aggregator *)

Lemma safe_metrics_ready (w : World) (records : list (gmap string cell)) :
  frame_ready records = true ->
  safe_metrics w (pd_DataFrame records)
  = ([], Ok (nan_to_zero <$>
       ({[ "total_tokens" := PInt (Z.of_nat (length records));
           "total_market_cap" := series_sum w (field "market_cap" records);
           "total_volume" := series_sum w (field "total_volume" records);
           "avg_24h_change" :=
             series_mean w (field "price_change_percentage_24h" records) ]}
        : gmap string pyval))).
Proof.
  intros H. unfold safe_metrics. by rewrite (metrics_try_ready _ _ H).
Qed.

Lemma safe_metrics_unready (w : World) (records : list (gmap string cell))
    (c : string) :
  first_missing records = Some c ->
  safe_metrics w (pd_DataFrame records)
  = ([StWarning (MsgExn "Error calculating metrics: " (KeyError c))],
     Ok zero_metrics).
Proof.
  unfold first_missing, aggregated_fields. cbn [find].
  intros Hmiss. unfold safe_metrics, metrics_try.
  destruct (carries "market_cap" records) eqn:Hmc; cbn [negb] in Hmiss.
  - rewrite (getnum_carried _ _ Hmc), bind_Ok.
    destruct (carries "total_volume" records) eqn:Hvol; cbn [negb] in Hmiss.
    + rewrite (getnum_carried _ _ Hvol), bind_Ok.
      destruct (carries "price_change_percentage_24h" records) eqn:Hpc;
        cbn [negb] in Hmiss; [discriminate|].
      injection Hmiss as <-. by rewrite (getnum_missing _ _ Hpc).
    + injection Hmiss as <-. by rewrite (getnum_missing _ _ Hvol).
  - injection Hmiss as <-. by rewrite (getnum_missing _ _ Hmc).
Qed.

Lemma first_missing_ready (records : list (gmap string cell)) :
  first_missing records = None <-> frame_ready records = true.
Proof.
  unfold first_missing, frame_ready, aggregated_fields. simpl.
  destruct (carries "market_cap" records),
    (carries "total_volume" records),
    (carries "price_change_percentage_24h" records); simpl;
    split; congruence.
Qed.

(** safe_metrics warns exactly when one of the three aggregated columns is
    absent from the frame; the warning carries the KeyError of the first
    absent column in the order market_cap, total_volume,
    price_change_percentage_24h, and the summary is then all zero, even
    when the other columns hold data. *)
Theorem safe_metrics_warns_on_missing_column (w : World)
    (records : list (gmap string cell)) :
  match first_missing records with
  | None => shown (safe_metrics w (pd_DataFrame records)) = []
  | Some c =>
      safe_metrics w (pd_DataFrame records)
      = ([StWarning (MsgExn "Error calculating metrics: " (KeyError c))],
         Ok zero_metrics)
  end.
Proof.
  destruct (first_missing records) as [c|] eqn:Hmiss.
  - by apply safe_metrics_unready.
  - apply first_missing_ready in Hmiss.
    by rewrite (safe_metrics_ready _ _ Hmiss).
Qed.

(** A frame without the 24h change column gives an all-zero summary
    although market caps and volumes are there. *)
Example market_caps_are_dropped (w : World) :
  safe_metrics w (pd_DataFrame scatter_example)
  = ([StWarning (MsgExn "Error calculating metrics: "
                        (KeyError "price_change_percentage_24h"))],
     Ok zero_metrics).
Proof. reflexivity. Qed.

Lemma carries_perm {V} (c : string) (l l' : list (gmap string V)) :
  Permutation l l' -> carries c l = carries c l'.
Proof.
  unfold carries. induction 1 as [|x l l' _ IH|x y l|l l' l'' _ IH1 _ IH2];
    simpl.
  - reflexivity.
  - by rewrite IH.
  - by rewrite !orb_assoc, (orb_comm (bool_decide (is_Some (y !! c)))).
  - by rewrite IH1.
Qed.

Lemma present_field_perm (c : string) (l l' : list (gmap string cell)) :
  Permutation l l' ->
  Permutation (present (field c l)) (present (field c l')).
Proof.
  induction 1 as [|x l l' _ IH|x y l|l l' l'' _ IH1 _ IH2]; simpl.
  - constructor.
  - destruct (mjoin (x !! c)); [by constructor|done].
  - destruct (mjoin (y !! c)), (mjoin (x !! c)); try done. constructor.
  - by etransitivity.
Qed.

Lemma Qsum_perm (l l' : list Q) :
  Permutation l l' -> (Qsum l == Qsum l')%Q.
Proof.
  induction 1 as [|x l l' _ IH|x y l|l l' l'' _ IH1 _ IH2]; simpl.
  - reflexivity.
  - by rewrite IH.
  - rewrite !Qplus_assoc, (Qplus_comm y x). reflexivity.
  - by rewrite IH1.
Qed.

Lemma Qmean_perm (l l' : list Q) :
  Permutation l l' -> (Qmean_or_zero l == Qmean_or_zero l')%Q.
Proof.
  intros Hperm.
  pose proof (Permutation_length Hperm) as Hlen.
  pose proof (Qsum_perm _ _ Hperm) as Hsum.
  destruct l as [|v vs], l' as [|v' vs']; try discriminate; [reflexivity|].
  unfold Qmean_or_zero. by rewrite Hsum, Hlen.
Qed.

Lemma same_summary_zero : same_summary zero_metrics zero_metrics.
Proof.
  intros k Hk. exists (PInt 0), (PInt 0), (inject_Z 0), (inject_Z 0).
  simpl in Hk. destruct Hk as [<-|[<-|[<-|[<-|[]]]]];
    split; try reflexivity; split; reflexivity || (split; [reflexivity|]);
    by split.
Qed.

Lemma safe_metrics_summarises (w : World)
    (records : list (gmap string cell)) :
  frame_ready records = true -> exact_on w records ->
  exists m,
    safe_metrics w (pd_DataFrame records) = ([], Ok m) /\
    summarises records m.
Proof.
  intros Hready (Hmc & Hvol & Hpc).
  rewrite (safe_metrics_ready _ _ Hready).
  eexists. split; [reflexivity|]. split; [reflexivity|].
  split; [by apply (reads_sum w)|].
  split; [by apply (reads_sum w)|]. by apply (reads_mean w).
Qed.

Lemma reads_Qeq (m : gmap string pyval) (k : string) (q q' : Q) :
  (q == q')%Q -> reads m k q -> reads m k q'.
Proof.
  intros Heq (v & p & Hv & Hp & Hpq). exists v, p.
  split; [done|]. split; [done|]. by rewrite Hpq.
Qed.

Lemma reads_same (m m' : gmap string pyval) (k : string) (q : Q) :
  reads m k q -> reads m' k q ->
  exists v v' p p',
    m !! k = Some v /\ m' !! k = Some v' /\
    pyval_Q v = Some p /\ pyval_Q v' = Some p' /\ (p == p')%Q.
Proof.
  intros (v & p & Hv & Hp & Hpq) (v' & p' & Hv' & Hp' & Hpq').
  exists v, v', p, p'. do 4 (split; [done|]). by rewrite Hpq, Hpq'.
Qed.

Lemma exact_world (w : World) (records : list (gmap string cell)) :
  np_sum w = exact_sum -> np_mean w = exact_mean -> exact_on w records.
Proof.
  intros Hsum Hmean. unfold exact_on, sum_exact, mean_exact.
  rewrite Hsum, Hmean.
  split; [|split].
  - right. eexists. split; reflexivity.
  - right. eexists. split; reflexivity.
  - destruct (present (field "price_change_percentage_24h" records))
      as [|v vs]; [by left|].
    right. eexists. split; reflexivity.
Qed.

(** Where pandas' arithmetic is exact on both lists, the summary does not
    depend on the order of the records: two lists with the same records in
    a different order give the same count, the same totals and the same
    average. *)
Theorem safe_metrics_order_independent (w : World)
    (records records' : list (gmap string cell))
    (Hperm : Permutation records records')
    (Hexact : exact_on w records) (Hexact' : exact_on w records') :
  exists m m',
    outcome (safe_metrics w (pd_DataFrame records)) = Ok m /\
    outcome (safe_metrics w (pd_DataFrame records')) = Ok m' /\
    same_summary m m'.
Proof.
  assert (Hready : frame_ready records = frame_ready records').
  { unfold frame_ready, aggregated_fields. simpl.
    by rewrite !(carries_perm _ _ _ Hperm). }
  assert (Hmiss : first_missing records = first_missing records').
  { unfold first_missing, aggregated_fields. simpl.
    by rewrite !(carries_perm _ _ _ Hperm). }
  destruct (first_missing records) as [c|] eqn:Hm.
  - exists zero_metrics, zero_metrics.
    rewrite (safe_metrics_unready _ _ _ Hm).
    symmetry in Hmiss. rewrite (safe_metrics_unready _ _ _ Hmiss).
    split; [reflexivity|]. split; [reflexivity|]. apply same_summary_zero.
  - apply first_missing_ready in Hm as Hr. pose proof Hr as Hr'.
    rewrite Hready in Hr'.
    destruct (safe_metrics_summarises w records Hr Hexact)
      as (m & -> & Htok & Hmc & Hvol & Hpc).
    destruct (safe_metrics_summarises w records' Hr' Hexact')
      as (m' & -> & Htok' & Hmc' & Hvol' & Hpc').
    exists m, m'. split; [reflexivity|]. split; [reflexivity|].
    intros k Hk. simpl in Hk.
    destruct Hk as [<-|[<-|[<-|[<-|[]]]]].
    + eexists _, _, _, _. split; [exact Htok|]. split; [exact Htok'|].
      split; [reflexivity|]. split; [reflexivity|].
      by rewrite (Permutation_length Hperm).
    + eapply reads_same; [exact Hmc|]. eapply reads_Qeq; [|exact Hmc'].
      symmetry. by apply Qsum_perm, present_field_perm.
    + eapply reads_same; [exact Hvol|]. eapply reads_Qeq; [|exact Hvol'].
      symmetry. by apply Qsum_perm, present_field_perm.
    + eapply reads_same; [exact Hpc|]. eapply reads_Qeq; [|exact Hpc'].
      symmetry. by apply Qmean_perm, present_field_perm.
Qed.

Lemma safe_metrics_order_independent_witness :
  exists m m',
    outcome (safe_metrics binary64_world (pd_DataFrame change_among_nulls))
    = Ok m /\
    outcome (safe_metrics binary64_world
               (pd_DataFrame (rev change_among_nulls))) = Ok m' /\
    same_summary m m'.
Proof.
  apply (safe_metrics_order_independent binary64_world change_among_nulls
           (rev change_among_nulls)).
  - apply Permutation_rev.
  - exact_by_computation.
  - exact_by_computation.
Defined.

(** In binary64 the order does matter: 0.1 + 0.2 + 0.3 is
    0.6000000000000001 and 0.3 + 0.2 + 0.1 is 0.6. *)
Example binary64_order_matters :
  exists m m',
    outcome (safe_metrics binary64_world (pd_DataFrame tenths)) = Ok m /\
    outcome (safe_metrics binary64_world (pd_DataFrame (rev tenths)))
    = Ok m' /\
    m !! "total_volume"
    = Some (PFloat (5404319552844596 # 9007199254740992)) /\
    m' !! "total_volume"
    = Some (PFloat (5404319552844595 # 9007199254740992)).
Proof.
  eexists _, _. split; [reflexivity|]. split; [reflexivity|].
  split; by vm_compute.
Qed.

(** ** More on the charts *)

Lemma both_positive_mc (r : gmap string cell) :
  both_positive r = true -> mc_positive r = true.
Proof.
  unfold both_positive, mc_positive.
  destruct (mjoin (r !! "market_cap")) as [mc|]; [|done].
  destruct (mjoin (r !! "total_volume")) as [vol|]; [|done].
  by intros [? _]%andb_true_iff.
Qed.

Lemma scatter_block_unqualified (w : World)
    (records : list (gmap string cell)) :
  List.filter both_positive records = [] ->
  exists m, scatter_block w (pd_DataFrame records) = ([StWarning m], Ok tt).
Proof.
  intros Hnone. unfold scatter_block.
  destruct (carries "market_cap" records) eqn:Hmc;
    [destruct (carries "total_volume" records) eqn:Hvol|].
  - rewrite (scatter_frame _ Hmc Hvol), bind_Ok, Hnone.
    rewrite (df_empty_rows _ _ _ Hmc). eauto.
  - unfold scatter_filter.
    rewrite (getnum_carried _ _ Hmc), (getnum_missing _ _ Hvol). eauto.
  - unfold scatter_filter. rewrite (getnum_missing _ _ Hmc). eauto.
Qed.

Lemma safe_treemap_unqualified (w : World)
    (records : list (gmap string cell)) (selected_category : string) :
  List.filter mc_positive records = [] ->
  exists m, safe_treemap w (pd_DataFrame records) selected_category
            = ([StWarning m], Ok None).
Proof.
  intros Hnone. unfold safe_treemap.
  destruct (carries "market_cap" records) eqn:Hmc.
  - rewrite (getnum_carried _ _ Hmc), bind_Ok, treemap_frame, Hnone.
    rewrite (df_empty_rows _ _ _ Hmc). eauto.
  - rewrite (getnum_missing _ _ Hmc). eauto.
Qed.

(** Every record the scatter plot uses is also used by the treemap; so
    when the treemap finds no record with a positive market cap, the
    scatter block draws no chart either and both show a warning. *)
Theorem scatter_within_treemap (w : World)
    (records : list (gmap string cell)) (selected_category : string) :
  (forall r, In r (List.filter both_positive records) ->
             In r (List.filter mc_positive records)) /\
  (List.filter mc_positive records = [] ->
   exists m m',
     safe_treemap w (pd_DataFrame records) selected_category
     = ([StWarning m], Ok None) /\
     scatter_block w (pd_DataFrame records) = ([StWarning m'], Ok tt)).
Proof.
  assert (Hsub : forall r, In r (List.filter both_positive records) ->
                           In r (List.filter mc_positive records)).
  { intros r. rewrite !filter_In. intros [? ?].
    split; [done|]. by apply both_positive_mc. }
  split; [exact Hsub|].
  intros Hnone.
  destruct (safe_treemap_unqualified w records selected_category Hnone)
    as [m Hm].
  destruct (scatter_block_unqualified w records) as [m' Hm'].
  { destruct (List.filter both_positive records) as [|r l] eqn:Hf; [done|].
    exfalso. specialize (Hsub r (or_introl eq_refl)).
    by rewrite Hnone in Hsub. }
  eauto.
Qed.

Lemma scatter_within_treemap_witness :
  exists m m',
    safe_treemap quiet_world (pd_DataFrame change_among_nulls) "DeFi"
    = ([StWarning m], Ok None) /\
    scatter_block quiet_world (pd_DataFrame change_among_nulls)
    = ([StWarning m'], Ok tt).
Proof.
  apply (scatter_within_treemap quiet_world change_among_nulls "DeFi").
  reflexivity.
Defined.

Lemma histogram_rows (records : list (gmap string cell)) :
  select_rows records
    (notna (field "price_change_percentage_24h" records))
  = List.filter has_change records.
Proof.
  induction records as [|r records IH]; [reflexivity|].
  simpl. unfold has_change at 1.
  destruct (mjoin (r !! "price_change_percentage_24h")); by rewrite <- IH.
Qed.

(** The histogram is built from exactly the records whose 24h change is
    present, in their order. Unlike the other two charts it has no test
    for an empty selection: as soon as the column exists the frame goes to
    plotly, even when no record has a change; without the column the
    block shows its warning. *)
Theorem histogram_nonnull_only (w : World)
    (records : list (gmap string cell)) :
  let kept := List.filter has_change records in
  let df_hist := mkDataFrame (columns (pd_DataFrame records)) kept in
  (forall r, In r kept <->
     In r records /\
     exists q, r !! "price_change_percentage_24h" = Some (Some q)) /\
  (carries "price_change_percentage_24h" records = true ->
   histogram_block w (pd_DataFrame records)
   = match chart_fails w (Histogram df_hist 20) with
     | None => ([StPlotlyChart (Histogram df_hist 20)], Ok tt)
     | Some _ =>
         ([StWarning (Msg
             "Could not create price change distribution chart.")], Ok tt)
     end) /\
  (carries "price_change_percentage_24h" records = false ->
   kept = [] /\
   histogram_block w (pd_DataFrame records)
   = ([StWarning (Msg
         "Could not create price change distribution chart.")], Ok tt)).
Proof.
  intros kept df_hist. split; [|split].
  - intros r. unfold kept. rewrite filter_In. unfold has_change.
    destruct (r !! "price_change_percentage_24h") as [[q|]|]; simpl.
    + split; [intros [? _]; eauto|tauto].
    + split; [by intros [_ ?]|]. by intros (_ & ? & ?).
    + split; [by intros [_ ?]|]. by intros (_ & ? & ?).
  - intros Hpc. unfold histogram_block.
    rewrite (getnum_carried _ _ Hpc), bind_Ok.
    unfold df_mask. change (rows (pd_DataFrame records)) with records.
    rewrite histogram_rows. fold kept. fold df_hist. unfold px.
    by destruct (chart_fails w (Histogram df_hist 20)).
  - intros Hpc. split.
    + apply filter_nil_of_Forall.
      eapply Forall_impl; [by apply carries_false_lookup|].
      intros r Hr. unfold has_change. simpl in Hr. by rewrite Hr.
    + unfold histogram_block. by rewrite (getnum_missing _ _ Hpc).
Qed.

Lemma histogram_nonnull_only_witness :
  List.filter has_change unchanged_records = [] /\
  (exists d, histogram_block quiet_world (pd_DataFrame unchanged_records)
             = ([StPlotlyChart (Histogram d 20)], Ok tt) /\ rows d = []) /\
  histogram_block quiet_world (pd_DataFrame scatter_example)
  = ([StWarning (Msg
        "Could not create price change distribution chart.")], Ok tt).
Proof.
  split; [reflexivity|]. split.
  - eexists. split; [|shelve].
    apply (histogram_nonnull_only quiet_world unchanged_records).
    reflexivity.
    Unshelve. reflexivity.
  - apply (histogram_nonnull_only quiet_world scatter_example). reflexivity.
Defined.

(** ** The rendered category *)

Lemma safe_metrics_entries (w : World) (df : DataFrame cell) :
  exists log m a b c d,
    safe_metrics w df = (log, Ok m) /\
    m !! "total_tokens" = Some a /\
    m !! "total_market_cap" = Some b /\
    m !! "total_volume" = Some c /\
    m !! "avg_24h_change" = Some d.
Proof.
  unfold safe_metrics, metrics_try.
  destruct (getnum df "market_cap") as [mc|e];
    [rewrite bind_Ok|by eexists _, zero_metrics, _, _, _, _].
  destruct (getnum df "total_volume") as [vol|e];
    [rewrite bind_Ok|by eexists _, zero_metrics, _, _, _, _].
  destruct (getnum df "price_change_percentage_24h") as [pc|e];
    [rewrite bind_Ok|by eexists _, zero_metrics, _, _, _, _].
  eexists _, _, _, _, _, _. split; [reflexivity|]. by repeat split.
Qed.

Lemma formattable_entries (w : World) (m : gmap string pyval)
    (a b c d : pyval) :
  m !! "total_tokens" = Some a ->
  m !! "total_market_cap" = Some b ->
  m !! "total_volume" = Some c ->
  m !! "avg_24h_change" = Some d ->
  formattable w m = true ->
  format_error w "," a = None /\ format_error w ",.0f" b = None /\
  format_error w ",.0f" c = None /\ format_error w ".2f" d = None.
Proof.
  intros Ha Hb Hc Hd. unfold formattable, tile_formats. cbn [forallb].
  cbv beta iota. rewrite Ha, Hb, Hc, Hd.
  destruct (format_error w "," a), (format_error w ",.0f" b),
    (format_error w ",.0f" c), (format_error w ".2f" d); done.
Qed.

Lemma metric_tile_run (w : World) (m : gmap string pyval)
    (label template spec key : string) (v : pyval) :
  m !! key = Some v ->
  metric_tile w m label template spec key
  = match format_error w spec v with
    | Some e => ([], Raise e)
    | None => ([StMetric label template v], Ok tt)
    end.
Proof.
  intros H. unfold metric_tile, dict_getitem, py_format.
  rewrite H, bind_Ok. by destruct (format_error w spec v).
Qed.

Lemma metric_tiles_shown (w : World) (selected_category : string)
    (m : gmap string pyval) (a b c d : pyval) :
  m !! "total_tokens" = Some a ->
  m !! "total_market_cap" = Some b ->
  m !! "total_volume" = Some c ->
  m !! "avg_24h_change" = Some d ->
  formattable w m = true ->
  metric_tiles w selected_category m
  = (StHeader ("📊 " ++ selected_category ++ " Overview") :: tiles a b c d,
     Ok tt).
Proof.
  intros Ha Hb Hc Hd Hfmt.
  destruct (formattable_entries w m a b c d Ha Hb Hc Hd Hfmt)
    as (Hfa & Hfb & Hfc & Hfd).
  unfold metric_tiles.
  rewrite (metric_tile_run w m _ _ _ _ a Ha),
    (metric_tile_run w m _ _ _ _ b Hb),
    (metric_tile_run w m _ _ _ _ c Hc),
    (metric_tile_run w m _ _ _ _ d Hd), Hfa, Hfb, Hfc, Hfd.
  reflexivity.
Qed.

Lemma metric_tiles_raises (w : World) (selected_category : string)
    (m : gmap string pyval) (a b c d : pyval) (e : exn) :
  m !! "total_tokens" = Some a ->
  m !! "total_market_cap" = Some b ->
  m !! "total_volume" = Some c ->
  m !! "avg_24h_change" = Some d ->
  outcome (metric_tiles w selected_category m) = Raise e ->
  exists key spec v,
    In (key, spec) tile_formats /\ m !! key = Some v /\
    format_error w spec v = Some e.
Proof.
  intros Ha Hb Hc Hd. unfold metric_tiles.
  rewrite (metric_tile_run w m _ _ _ _ a Ha),
    (metric_tile_run w m _ _ _ _ b Hb),
    (metric_tile_run w m _ _ _ _ c Hc),
    (metric_tile_run w m _ _ _ _ d Hd).
  unfold tile_formats.
  destruct (format_error w "," a) as [ea|] eqn:Hfa.
  { intros [= <-]. exists "total_tokens", ",", a. simpl. tauto. }
  destruct (format_error w ",.0f" b) as [eb|] eqn:Hfb.
  { intros [= <-]. exists "total_market_cap", ",.0f", b. simpl. tauto. }
  destruct (format_error w ",.0f" c) as [ec|] eqn:Hfc.
  { intros [= <-]. exists "total_volume", ",.0f", c. simpl. tauto. }
  destruct (format_error w ".2f" d) as [ed|] eqn:Hfd.
  { intros [= <-]. exists "avg_24h_change", ".2f", d. simpl. tauto. }
  discriminate.
Qed.

Lemma charts_total (w : World) (df : DataFrame cell)
    (selected_category : string) :
  outcome (charts w df selected_category) = Ok tt.
Proof.
  unfold charts.
  rewrite (isolated_run w is_treemap) by apply treemap_block_isolated.
  destruct (df_empty df); cbn [negb]; [reflexivity|].
  rewrite bind_say.
  rewrite (isolated_run w is_histogram) by apply histogram_block_isolated.
  by destruct (scatter_block_isolated w df) as [-> _].
Qed.

Lemma bind_logged {A B} (log : list ui_event) (a : A) (k : A -> ui B) :
  bind (log, Ok a) k = ((log ++ shown (k a))%list, outcome (k a)).
Proof. by apply bind_shown. Qed.

(** Once a category is selected, an exception leaves the rendering only
    if it left the fetcher, which is the case of a response.json() that
    raises something else than a RequestException, or if it is raised by
    formatting an entry of the summary for its tile; whatever plotly does
    and whatever the columns hold, nothing else raises. When the endpoint
    answers with a non-empty list of records and the four entries can be
    formatted, the page shows the aggregator's warning if any, then the
    header, exactly four tiles that carry the entries of the summary, then
    the charts, and ends normally. *)
Theorem render_category_total (w : World) (selected_category : string)
    (selected_id : option string) :
  (forall e,
     outcome (render_category w selected_category selected_id) = Raise e ->
     outcome (fetch_category_data w selected_id) = Raise e \/
     exists records m key spec v,
       outcome (fetch_category_data w selected_id) = Ok (Some records) /\
       outcome (safe_metrics w (pd_DataFrame records)) = Ok m /\
       In (key, spec) tile_formats /\ m !! key = Some v /\
       format_error w spec v = Some e) /\
  (forall status r records,
     http_markets w selected_id = Response status (r :: records) ->
     http_failed (http_markets w selected_id) = false ->
     exists m a b c d,
       outcome (safe_metrics w (pd_DataFrame (r :: records))) = Ok m /\
       m !! "total_tokens" = Some a /\
       m !! "total_market_cap" = Some b /\
       m !! "total_volume" = Some c /\
       m !! "avg_24h_change" = Some d /\
       (formattable w m = true ->
        render_category w selected_category selected_id
        = ((shown (safe_metrics w (pd_DataFrame (r :: records))) ++
            StHeader ("📊 " ++ selected_category ++ " Overview") ::
            tiles a b c d ++
            shown (charts w (pd_DataFrame (r :: records))
                     selected_category))%list, Ok tt))).
Proof.
  split.
  - intros e. unfold render_category.
    destruct (fetch_category_data w selected_id) as [log [[recs|]|e']].
    + rewrite bind_logged. destruct recs as [|r recs]; [discriminate|].
      cbv beta iota. unfold outcome at 1. cbn [snd].
      destruct (safe_metrics_entries w (pd_DataFrame (r :: recs)))
        as (log' & m & a & b & c & d & Hm & Ha & Hb & Hc & Hd).
      rewrite Hm, bind_logged. unfold outcome at 1. cbn [snd].
      destruct (metric_tiles w selected_category m) as [logt [[]|et]] eqn:Ht.
      * rewrite bind_logged, charts_total. discriminate.
      * intros [= <-]. right.
        destruct (metric_tiles_raises w selected_category m a b c d et
                    Ha Hb Hc Hd) as (key & spec & v & Hin & Hv & Hf).
        { by rewrite Ht. }
        exists (r :: recs), m, key, spec, v. by rewrite Hm.
    + rewrite bind_logged. discriminate.
    + intros [= <-]. by left.
  - intros status r records Hresp Hok. rewrite Hresp in Hok.
    destruct (safe_metrics_entries w (pd_DataFrame (r :: records)))
      as (log & m & a & b & c & d & Hm & Ha & Hb & Hc & Hd).
    exists m, a, b, c, d. rewrite Hm. do 5 (split; [done|]).
    intros Hfmt. unfold render_category.
    rewrite (fetch_category_data_ok w selected_id status _ Hresp Hok).
    rewrite bind_logged. cbv beta iota. rewrite Hm, bind_logged.
    rewrite (bind_shown _ _ _ _
               (metric_tiles_shown w selected_category m a b c d
                  Ha Hb Hc Hd Hfmt)).
    by rewrite charts_total.
Qed.

Lemma render_category_total_witness :
  (outcome (fetch_category_data garbled_world (Some "defi"))
   = Raise (ValueError "Expecting value") \/
   exists records m key spec v,
     outcome (fetch_category_data garbled_world (Some "defi"))
     = Ok (Some records) /\
     outcome (safe_metrics garbled_world (pd_DataFrame records)) = Ok m /\
     In (key, spec) tile_formats /\ m !! key = Some v /\
     format_error garbled_world spec v
     = Some (ValueError "Expecting value")) /\
  exists m a b c d,
    outcome (safe_metrics (assets_world unchanged_records)
               (pd_DataFrame unchanged_records)) = Ok m /\
    m !! "total_tokens" = Some a /\
    m !! "total_market_cap" = Some b /\
    m !! "total_volume" = Some c /\
    m !! "avg_24h_change" = Some d /\
    render_category (assets_world unchanged_records) "DeFi" (Some "defi")
    = ((shown (safe_metrics (assets_world unchanged_records)
                 (pd_DataFrame unchanged_records)) ++
        StHeader ("📊 " ++ "DeFi" ++ " Overview") ::
        tiles a b c d ++
        shown (charts (assets_world unchanged_records)
                 (pd_DataFrame unchanged_records) "DeFi"))%list, Ok tt).
Proof.
  split.
  - apply (proj1 (render_category_total garbled_world "DeFi" (Some "defi"))).
    reflexivity.
  - destruct (proj2 (render_category_total (assets_world unchanged_records)
                       "DeFi" (Some "defi")) 200
                (hd ∅ unchanged_records) (tl unchanged_records)
                eq_refl eq_refl)
      as (m & a & b & c & d & Hm & Ha & Hb & Hc & Hd & Hpage).
    exists m, a, b, c, d. do 5 (split; [assumption|]).
    apply Hpage.
    injection Hm as <-. reflexivity.
Defined.

(** Formatting is where the tiles can fail: with an int of 2^1024 as the
    market cap total, the header and the first tile are shown and the
    second tile raises OverflowError. *)
Example huge_total_overflows :
  metric_tiles python_format_world "DeFi" huge_summary
  = ([StHeader "📊 DeFi Overview";
      StMetric "Number of Tokens" "{:,}" (PInt 1)],
     Raise (OverflowError "int too large to convert to float")).
Proof. by vm_compute. Qed.

(** ** Names that occur twice *)

(** First match wins: with the name and id columns in the catalog, the id
    that is fetched is the category_id of the first record whose name is
    the selection, also when later records have the same name; a
    selection that names no record raises IndexError. *)
Theorem resolve_id_first_wins (cats : list (gmap string string))
    (selection : string)
    (Hname : carries "name" cats = true)
    (Hid : carries "category_id" cats = true) :
  resolve_id (pd_DataFrame cats) (Some selection)
  = match first_named selection cats with
    | Some r => Ok (r !! "category_id")
    | None => Raise (IndexError "single positional indexer is out-of-bounds")
    end.
Proof.
  destruct (first_named selection cats) as [r|] eqn:Hfirst.
  - by apply resolve_id_first.
  - unfold resolve_id, getitem.
    rewrite bool_decide_eq_true_2 by (by apply elem_of_columns).
    unfold df_mask. simpl.
    rewrite bool_decide_eq_true_2
      by (by apply (elem_of_columns "category_id" cats)).
    clear Hname Hid. unfold series_eq, first_named in *.
    induction cats as [|c cats IH]; [reflexivity|].
    simpl in *. destruct (c !! "name") as [n|]; simpl.
    + destruct (String.eqb n selection); [discriminate|]. by apply IH.
    + by apply IH.
Qed.

Lemma resolve_id_first_wins_witness :
  resolve_id (pd_DataFrame twin_catalog) (Some "Layer") = Ok (Some "layer-1").
Proof.
  apply (resolve_id_first_wins twin_catalog "Layer"); reflexivity.
Defined.

(** ** The default selection after a search *)

Lemma resolve_id_head (cols : gset string)
    (r0 : gmap string string) (others : list (gmap string string))
    (n0 : string) :
  "name" ∈ cols -> "category_id" ∈ cols ->
  r0 !! "name" = Some n0 ->
  resolve_id (mkDataFrame cols (r0 :: others)) (Some n0)
  = Ok (r0 !! "category_id").
Proof.
  intros Hname Hid Hn0. unfold resolve_id, getitem, df_mask. simpl.
  rewrite !bool_decide_eq_true_2 by done.
  simpl. by rewrite Hn0, String.eqb_refl.
Qed.

(** For ASCII text: with a search term free of metacharacters and the
    dropdown untouched, the dropdown offers the names of the matching
    categories in catalog order, the first match is the selection, and the
    page renders that category under the category_id of that record. *)
Theorem search_selects_first_match (w : World) (status : Z)
    (c0 : gmap string string) (rest : list (gmap string string))
    (r0 : gmap string string) (others : list (gmap string string))
    (n0 : string)
    (Hresp : http_categories w = Response status (c0 :: rest))
    (Hok : http_failed (http_categories w) = false)
    (Hnamed : forallb named (c0 :: rest) = true)
    (Hid : carries "category_id" (c0 :: rest) = true)
    (Hascii : is_ascii (search_text w) = true)
    (Hnames : ascii_names (c0 :: rest) = true)
    (Hplain : re_plain (lower (search_text w)) = true)
    (Hpick : picked w = None)
    (Hmatch : List.filter (name_contains (lower (search_text w))) (c0 :: rest)
              = r0 :: others)
    (Hn0 : r0 !! "name" = Some n0) :
  main w
  = (StTitle "🔍 DTF Scope" ::
     StHeader "Category Selection" ::
     StTextInput "Search Categories" ::
     StSelectbox "Select Category"
       (map (fun r : gmap string string => r !! "name") (r0 :: others)) ::
     shown (render_category w n0 (r0 !! "category_id")),
     outcome (render_category w n0 (r0 !! "category_id"))).
Proof.
  assert (Hcname : carries "name" (c0 :: rest) = true)
    by (by apply carries_named).
  rewrite (main_after_fetch w status c0 rest Hresp Hok).
  rewrite (filter_categories_parsed w (c0 :: rest) _ _ ltac:(done) Hnamed
             (re_parse_plain _ Hplain)), bind_Ok.
  change (List.filter
            (name_matches (re_search (re_literal (lower (search_text w)))))
            (c0 :: rest))
    with (List.filter (name_contains (lower (search_text w))) (c0 :: rest)).
  rewrite Hmatch.
  rewrite (df_empty_rows _ _ _ Hcname). cbn [negb].
  assert (Hcols : "name" ∈ columns (pd_DataFrame (c0 :: rest)) /\
                  "category_id" ∈ columns (pd_DataFrame (c0 :: rest))).
  { split; by apply elem_of_columns. }
  destruct Hcols as [Hcn Hci].
  assert (Hopts : getitem (mkDataFrame (columns (pd_DataFrame (c0 :: rest)))
                             (r0 :: others)) "name"
            = Ok (map (fun r : gmap string string => r !! "name")
                      (r0 :: others))).
  { unfold getitem. by rewrite bool_decide_eq_true_2. }
  rewrite Hopts, bind_Ok.
  assert (Hbox : st_selectbox w "Select Category"
            (map (fun r : gmap string string => r !! "name") (r0 :: others)) 0
          = ([StSelectbox "Select Category"
                (map (fun r : gmap string string => r !! "name")
                     (r0 :: others))],
             Ok (Some n0))).
  { unfold st_selectbox. rewrite Hpick, bind_say. simpl. by rewrite Hn0. }
  rewrite (bind_shown _ _ _ _ Hbox).
  rewrite (resolve_id_head _ r0 others n0 Hcn Hci Hn0), bind_Ok.
  reflexivity.
Qed.

Lemma search_selects_first_match_witness :
  main (empty_market_world "NFT")
  = (StTitle "🔍 DTF Scope" ::
     StHeader "Category Selection" ::
     StTextInput "Search Categories" ::
     StSelectbox "Select Category"
       (map (fun r : gmap string string => r !! "name")
            [category "nft-index" "NFT Index"]) ::
     shown (render_category (empty_market_world "NFT") "NFT Index"
              (category "nft-index" "NFT Index" !! "category_id")),
     outcome (render_category (empty_market_world "NFT") "NFT Index"
                (category "nft-index" "NFT Index" !! "category_id"))).
Proof.
  apply (search_selects_first_match (empty_market_world "NFT") 200
           (category "defi" "DeFi") [category "nft-index" "NFT Index"]
           (category "nft-index" "NFT Index") [] "NFT Index");
    reflexivity.
Defined.

(** ** Totals over two pages *)

Lemma field_app (c : string) (xs ys : list (gmap string cell)) :
  present (field c (xs ++ ys))
  = (present (field c xs) ++ present (field c ys))%list.
Proof.
  induction xs as [|x xs IH]; [reflexivity|].
  simpl. destruct (mjoin (x !! c)); simpl; by rewrite <- IH.
Qed.

Lemma Qsum_app (l l' : list Q) : (Qsum (l ++ l') == Qsum l + Qsum l')%Q.
Proof.
  induction l as [|x l IH]; simpl.
  - by rewrite Qplus_0_l.
  - by rewrite IH, Qplus_assoc.
Qed.

Lemma frame_ready_app_l (xs ys : list (gmap string cell)) :
  frame_ready xs = true -> frame_ready (xs ++ ys) = true.
Proof.
  unfold frame_ready, aggregated_fields, carries. simpl.
  rewrite !existsb_app, !andb_true_iff, !orb_true_iff. tauto.
Qed.

(** Where pandas' arithmetic is exact on two lists of records and on
    their concatenation, the totals are additive: when the two lists each
    have the three aggregated columns, the summary of their concatenation
    counts the tokens of both and its market cap and volume totals are the
    sums of the two lists' totals. *)
Theorem safe_metrics_additive (w : World) (xs ys : list (gmap string cell))
    (Hxs : frame_ready xs = true) (Hys : frame_ready ys = true)
    (Hexact_xs : exact_on w xs) (Hexact_ys : exact_on w ys)
    (Hexact : exact_on w (xs ++ ys)) :
  exists mx my m,
    outcome (safe_metrics w (pd_DataFrame xs)) = Ok mx /\
    outcome (safe_metrics w (pd_DataFrame ys)) = Ok my /\
    outcome (safe_metrics w (pd_DataFrame (xs ++ ys))) = Ok m /\
    (exists nx ny,
       mx !! "total_tokens" = Some (PInt nx) /\
       my !! "total_tokens" = Some (PInt ny) /\
       m !! "total_tokens" = Some (PInt (nx + ny))) /\
    (forall k, k = "total_market_cap" \/ k = "total_volume" ->
       exists qx qy,
         reads mx k qx /\ reads my k qy /\ reads m k (qx + qy)).
Proof.
  destruct (safe_metrics_summarises w xs Hxs Hexact_xs)
    as (mx & -> & Htx & Hmcx & Hvolx & _).
  destruct (safe_metrics_summarises w ys Hys Hexact_ys)
    as (my & -> & Hty & Hmcy & Hvoly & _).
  destruct (safe_metrics_summarises w (xs ++ ys)
              (frame_ready_app_l xs ys Hxs) Hexact)
    as (m & -> & Ht & Hmc & Hvol & _).
  exists mx, my, m. do 3 (split; [reflexivity|]). split.
  - eexists _, _. split; [exact Htx|]. split; [exact Hty|].
    by rewrite Ht, length_app, Nat2Z.inj_add.
  - intros k [-> | ->]; eexists _, _.
    + split; [exact Hmcx|]. split; [exact Hmcy|].
      eapply reads_Qeq; [|exact Hmc]. by rewrite field_app, Qsum_app.
    + split; [exact Hvolx|]. split; [exact Hvoly|].
      eapply reads_Qeq; [|exact Hvol]. by rewrite field_app, Qsum_app.
Qed.

Lemma safe_metrics_additive_witness :
  exists mx my m,
    outcome (safe_metrics binary64_world (pd_DataFrame first_page))
    = Ok mx /\
    outcome (safe_metrics binary64_world (pd_DataFrame second_page))
    = Ok my /\
    outcome (safe_metrics binary64_world
               (pd_DataFrame (first_page ++ second_page))) = Ok m /\
    (exists nx ny,
       mx !! "total_tokens" = Some (PInt nx) /\
       my !! "total_tokens" = Some (PInt ny) /\
       m !! "total_tokens" = Some (PInt (nx + ny))) /\
    (forall k, k = "total_market_cap" \/ k = "total_volume" ->
       exists qx qy,
         reads mx k qx /\ reads my k qy /\ reads m k (qx + qy)).
Proof.
  apply (safe_metrics_additive binary64_world first_page second_page);
    try reflexivity; exact_by_computation.
Defined.
